(** * kss: KOReader simple sync server -- fingerprints and sync handlers

    A shallow embedding of
      - [example/partial_md5.py]  (function [partial_md5]),
      - [example/md5name.py]      (function [md5]),
      - [kss.py]                  (the Flask handlers [register], [login],
                                   [push], [pull] and their helpers),
    together with the properties of the fingerprint engine and of the sync
    service that the specification states about them. *)

From Stdlib Require Import ZArith List Strings.Byte Ascii String Lia SpecFloat.
From Stdlib Require Import Decimal DecimalString.
From stdpp Require Import gmap strings list fin_maps.
From Equations Require Import Equations.
From Equations.Prop Require Import Logic.
Import ListNotations.

Local Open Scope Z_scope.

(** ** Python exceptions and results

    A Python call either returns a value or raises.  Only the exception
    classes that the modelled code can raise are listed. *)

Inductive exn : Type :=
| ValueError      (* negative seek value *)
| AttributeError  (* [.get] on a JSON value that is not an object *)
| KeyError        (* [auth["x-auth-user"]] on an object without that key *)
| TypeError       (* subscripting a JSON value that is not an object *)
| FileNotFoundError     (* reading a file that does not exist *)
| BadRequest            (* werkzeug: the body of a JSON request does not parse *)
| UnsupportedMediaType. (* werkzeug: [get_json] on a request that is not JSON *)

Inductive result (A : Type) : Type :=
| Ok (a : A)
| Raise (e : exn).
Arguments Ok {A} a.
Arguments Raise {A} e.

Definition bind {A B} (r : result A) (k : A -> result B) : result B :=
  match r with
  | Ok a => k a
  | Raise e => Raise e
  end.

Notation "'let!' x ':=' r 'in' k" := (bind r (fun x => k))
  (at level 10, x name, r at level 100, k at level 200).

(** ** hashlib.md5

    The MD5 function of RFC 1321 on byte strings, as [hashlib.md5] computes
    it.  Words are 32-bit, kept in [Z] with the wrap-around written out. *)

Module Hashlib.

Definition w32 (x : Z) : Z := x mod 2 ^ 32.

Definition rotl (x c : Z) : Z :=
  w32 (Z.lor (Z.shiftl x c) (Z.shiftr (w32 x) (32 - c))).

Definition not32 (x : Z) : Z := Z.lxor x (2 ^ 32 - 1).

(** Per-round shift amounts. *)
Definition shift_amounts : list Z :=
  [7; 12; 17; 22; 7; 12; 17; 22; 7; 12; 17; 22; 7; 12; 17; 22;
   5;  9; 14; 20; 5;  9; 14; 20; 5;  9; 14; 20; 5;  9; 14; 20;
   4; 11; 16; 23; 4; 11; 16; 23; 4; 11; 16; 23; 4; 11; 16; 23;
   6; 10; 15; 21; 6; 10; 15; 21; 6; 10; 15; 21; 6; 10; 15; 21].

(** [sine_table[i] = floor (2^32 * abs (sin (i + 1)))]. *)
Definition sine_table : list Z :=
  [0xd76aa478; 0xe8c7b756; 0x242070db; 0xc1bdceee;
   0xf57c0faf; 0x4787c62a; 0xa8304613; 0xfd469501;
   0x698098d8; 0x8b44f7af; 0xffff5bb1; 0x895cd7be;
   0x6b901122; 0xfd987193; 0xa679438e; 0x49b40821;
   0xf61e2562; 0xc040b340; 0x265e5a51; 0xe9b6c7aa;
   0xd62f105d; 0x02441453; 0xd8a1e681; 0xe7d3fbc8;
   0x21e1cde6; 0xc33707d6; 0xf4d50d87; 0x455a14ed;
   0xa9e3e905; 0xfcefa3f8; 0x676f02d9; 0x8d2a4c8a;
   0xfffa3942; 0x8771f681; 0x6d9d6122; 0xfde5380c;
   0xa4beea44; 0x4bdecfa9; 0xf6bb4b60; 0xbebfbc70;
   0x289b7ec6; 0xeaa127fa; 0xd4ef3085; 0x04881d05;
   0xd9d4d039; 0xe6db99e5; 0x1fa27cf8; 0xc4ac5665;
   0xf4292244; 0x432aff97; 0xab9423a7; 0xfc93a039;
   0x655b59c3; 0x8f0ccc92; 0xffeff47d; 0x85845dd1;
   0x6fa87e4f; 0xfe2ce6e0; 0xa3014314; 0x4e0811a1;
   0xf7537e82; 0xbd3af235; 0x2ad7d2bb; 0xeb86d391].

Definition byteZ (b : byte) : Z := Z.of_N (Byte.to_N b).

Definition Zbyte (z : Z) : byte :=
  match Byte.of_N (Z.to_N (z mod 256)) with
  | Some b => b
  | None => x00
  end.

(** Little-endian encoding of the low [n] bytes of [z]. *)
Fixpoint le_bytes (n : nat) (z : Z) : list byte :=
  match n with
  | O => []
  | S n' => Zbyte z :: le_bytes n' (Z.shiftr z 8)
  end.

Fixpoint le_word (bs : list byte) : Z :=
  match bs with
  | [] => 0
  | b :: bs' => byteZ b + 256 * le_word bs'
  end.

(** The message followed by 0x80, zeros up to 56 mod 64, and the bit length
    on 64 bits. *)
Definition padding (msg : list byte) : list byte :=
  let len := Z.of_nat (length msg) in
  let zeros := Z.to_nat ((55 - len) mod 64) in
  msg ++ [x80] ++ repeat x00 zeros ++ le_bytes 8 ((8 * len) mod 2 ^ 64).

(** Cut a byte string into [n] chunks of [k] bytes. *)
Fixpoint chunks (n k : nat) (bs : list byte) : list (list byte) :=
  match n with
  | O => []
  | S n' => firstn k bs :: chunks n' k (skipn k bs)
  end.

Definition words_of_block (blk : list byte) : list Z :=
  List.map le_word (chunks 16 4 blk).

Record state := State { sA : Z; sB : Z; sC : Z; sD : Z }.

Definition initial : state :=
  State 0x67452301 0xefcdab89 0x98badcfe 0x10325476.

Definition round (m : list Z) (st : state) (i : Z) : state :=
  let '(State a b c d) := st in
  let '(f, g) :=
    if i <? 16 then (Z.lor (Z.land b c) (Z.land (not32 b) d), i)
    else if i <? 32 then (Z.lor (Z.land d b) (Z.land (not32 d) c), (5 * i + 1) mod 16)
    else if i <? 48 then (Z.lxor (Z.lxor b c) d, (3 * i + 5) mod 16)
    else (Z.lxor c (Z.lor b (not32 d)), (7 * i) mod 16) in
  let k := nth (Z.to_nat i) sine_table 0 in
  let s := nth (Z.to_nat i) shift_amounts 0 in
  let f' := w32 (f + a + k + nth (Z.to_nat g) m 0) in
  State d (w32 (b + rotl f' s)) b c.

Definition round_indices : list Z := List.map Z.of_nat (seq 0 64).

Definition compress (st : state) (blk : list byte) : state :=
  let m := words_of_block blk in
  let '(State a b c d) := fold_left (round m) round_indices st in
  State (w32 (sA st + a)) (w32 (sB st + b)) (w32 (sC st + c)) (w32 (sD st + d)).

Definition digest (msg : list byte) : list byte :=
  let padded := padding msg in
  let blocks := chunks (Nat.div (length padded) 64) 64 padded in
  let '(State a b c d) := fold_left compress blocks initial in
  le_bytes 4 a ++ le_bytes 4 b ++ le_bytes 4 c ++ le_bytes 4 d.

Definition hex_digit (z : Z) : ascii :=
  nth (Z.to_nat z)
      (list_ascii_of_string "0123456789abcdef") "0"%char.

Fixpoint hex (bs : list byte) : string :=
  match bs with
  | [] => EmptyString
  | b :: bs' =>
      String (hex_digit (byteZ b / 16))
             (String (hex_digit (byteZ b mod 16)) (hex bs'))
  end.

(** The accumulator object: [hashlib.md5()] starts empty, [update] feeds
    bytes, and feeding [a] then [b] is feeding [a + b]; the object is
    represented by the bytes fed so far. *)
Record md5_object := Md5Object { fed : list byte }.

Definition md5 : md5_object := Md5Object [].

Definition update (m : md5_object) (data : list byte) : md5_object :=
  Md5Object (fed m ++ data).

Definition hexdigest (m : md5_object) : string := hex (digest (fed m)).

End Hashlib.

Definition bytes_of (s : string) : list byte := list_byte_of_string s.

(** ** Seekable binary streams ([typing.BinaryIO], [io.BytesIO])

    A stream is its content and the current position.  [read] and [seek]
    follow [io.BytesIO]: a read at or past the end returns [b""] and leaves
    the position alone, a negative size reads to the end, a seek past the
    end is allowed, and a negative absolute seek raises [ValueError]. *)

Module Io.

Record BinaryIO := File { content : list byte; pos : Z }.

Definition BytesIO (data : list byte) : BinaryIO := File data 0.

Definition read (file : BinaryIO) (size : Z) : list byte * BinaryIO :=
  let n := Z.of_nat (length (content file)) - pos file in
  if n <=? 0 then ([], file)
  else
    let size := if (size <? 0) || (n <? size) then n else size in
    (firstn (Z.to_nat size) (skipn (Z.to_nat (pos file)) (content file)),
     File (content file) (pos file + size)).

(** [file.seek(offset, 0)] of a [BytesIO], for offsets that fit a machine
    word (an offset of 2^63 or more is refused with [OverflowError], and a
    file of the operating system refuses a negative one with [OSError]). *)
Definition seek (file : BinaryIO) (offset : Z) : result BinaryIO :=
  if offset <? 0 then Raise ValueError
  else Ok (File (content file) offset).

End Io.

(** [range(lo, hi)] *)
Definition range (lo hi : nat) : list Z := List.map Z.of_nat (seq lo (hi - lo)).

(** Truth value of a [bytes] object: non-empty. *)
Definition bytes_truthy (b : list byte) : bool :=
  match b with
  | [] => false
  | _ :: _ => true
  end.

(** ** example/partial_md5.py *)

Module PartialMd5.
Import Io.

(** The body of [for i in range(0, 10)], with its [break]. *)
Fixpoint sample_loop (indices : list Z) (file : BinaryIO) (step size : Z)
    (m : Hashlib.md5_object) : result Hashlib.md5_object :=
  match indices with
  | [] => Ok m
  | i :: indices' =>
      let! file := seek file (Z.shiftl step (2 * i)) in
      let '(sample, file) := read file size in
      if bytes_truthy sample
      then sample_loop indices' file step size (Hashlib.update m sample)
      else Ok m
  end.

Definition partial_md5 (file : BinaryIO) (step size : Z) : result string :=
  let m := Hashlib.md5 in
  let '(sample, file) := read file size in
  let m := Hashlib.update m sample in
  let! m := sample_loop (range 0 10) file step size m in
  Ok (Hashlib.hexdigest m).

(** [def partial_md5(file, step: int = 1024, size: int = 1024)] *)
Definition default_step : Z := 1024.
Definition default_size : Z := 1024.

End PartialMd5.

(** ** example/md5name.py *)

Module Md5name.
Import Io.

Definition remaining (file : BinaryIO) : nat :=
  Z.to_nat (Z.of_nat (length (content file)) - pos file).

(** The [while True] loop: it ends because every non-empty read moves the
    position towards the end of the stream. *)
Equations? md5_loop (file : BinaryIO) (sum : Hashlib.md5_object) :
    Hashlib.md5_object by wf (remaining file) lt :=
  md5_loop file sum with inspect (read file 4096) := {
    | exist _ (data, file') Hread with inspect (bytes_truthy data) := {
      | exist _ false _ := sum
      | exist _ true Hdata := md5_loop file' (Hashlib.update sum data) } }.
Proof.
  destruct data as [|b data]; [discriminate|].
  revert Hread. unfold read, remaining.
  destruct (Z.leb_spec (Z.of_nat (length (content file)) - pos file) 0);
    [discriminate|].
  intros [= _ <-]. simpl.
  destruct (Z.ltb_spec (Z.of_nat (length (content file)) - pos file) 4096);
    simpl; lia.
Qed.

Definition md5 (file : BinaryIO) : string :=
  let sum := Hashlib.md5 in
  Hashlib.hexdigest (md5_loop file sum).

End Md5name.

(** ** The sparse-sampling fingerprint in the specification's words

    The window of [size] bytes at offset [off] is the part of the stream in
    [off, off + size).  The fingerprint hashes the window at offset 0 and
    then the windows at [step << (2*i)], i = 0..9, up to the first empty
    one. *)

Module FingerprintSpec.

Definition window (s : list byte) (off size : Z) : list byte :=
  firstn (Z.to_nat size) (skipn (Z.to_nat off) s).

Fixpoint sparse_samples (s : list byte) (step size : Z) (indices : list Z) :
    list (list byte) :=
  match indices with
  | [] => []
  | i :: indices' =>
      match window s (Z.shiftl step (2 * i)) size with
      | [] => []
      | w => w :: sparse_samples s step size indices'
      end
  end.

(** The byte string that the accumulator has received at the end. *)
Definition hashed_bytes (s : list byte) (step size : Z) : list byte :=
  window s 0 size ++ concat (sparse_samples s step size (range 0 10)).

Definition sparseDigest (s : list byte) (step size : Z) : string :=
  Hashlib.hex (Hashlib.digest (hashed_bytes s step size)).

Definition fullDigest (s : list byte) : string :=
  Hashlib.hex (Hashlib.digest s).

(** Offset [k] lies in the window at [off]. *)
Definition in_window (off size k : Z) : Prop := off <= k < off + size.

(** Offset [k] lies in one of the eleven sampled windows. *)
Definition sampled (step size k : Z) : Prop :=
  in_window 0 size k \/
  exists i, 0 <= i < 10 /\ in_window (step * 4 ^ i) size k.

End FingerprintSpec.

(** ** kss.py: JSON values

    What [json.loads] / [request.get_json()] return: [None], [bool], [int],
    [float], [str], [list] and [dict] with string keys.  A Python [float] is
    an IEEE 754 binary64 number. *)

#[warnings="-register-all"]
Inductive json : Type :=
| JNull
| JBool (b : bool)
| JInt (n : Z)
| JFloat (f : spec_float)
| JStr (s : string)
| JArr (l : list json)
| JObj (m : gmap string json).

(** Conversions of the Python runtime that are taken as given: parsing a
    number out of a [str] ([float(s)], [int(s)]; [None] when Python raises
    [ValueError]) and [str(v)] of a value that is not a [str], as an
    f-string formats it. *)
Class PythonRuntime := {
  float_of_str : string -> option spec_float;
  int_of_str : string -> option Z;
  str_of_value : json -> string
}.

Module Py.

(** Truth value of an object, as [if x] and [not x] test it. *)
Definition truthy (v : json) : bool :=
  match v with
  | JNull => false
  | JBool b => b
  | JInt n => negb (n =? 0)
  | JFloat (S754_zero _) => false
  | JFloat _ => true
  | JStr s => negb (String.eqb s "")
  | JArr l => negb (Nat.eqb (length l) 0)
  | JObj m => negb (Nat.eqb (size m) 0)
  end.

(** Truth value of an [Optional[str]]. *)
Definition str_truthy (s : option string) : bool :=
  match s with
  | None => false
  | Some s => negb (String.eqb s "")
  end.

(** [isinstance(v, str)] *)
Definition isinstance_str (v : json) : bool :=
  match v with
  | JStr _ => true
  | _ => false
  end.

(** The characters of a value known to be a [str]. *)
Definition str_value (v : json) : string :=
  match v with
  | JStr s => s
  | _ => ""
  end.

(** [v == s] for a [str] [s] *)
Definition eq_str (v : json) (s : string) : bool :=
  match v with
  | JStr t => String.eqb t s
  | _ => false
  end.

(** [js.get(key, default)]; only a [dict] has the method. *)
Definition dict_get (js : json) (key : string) (default : json) : result json :=
  match js with
  | JObj m => Ok (from_option id default (m !! key))
  | _ => Raise AttributeError
  end.

(** [js[key]] *)
Definition getitem (js : json) (key : string) : result json :=
  match js with
  | JObj m =>
      match m !! key with
      | Some v => Ok v
      | None => Raise KeyError
      end
  | _ => Raise TypeError
  end.

(** [js[key] = value] *)
Definition setitem (js : json) (key : string) (value : json) : result json :=
  match js with
  | JObj m => Ok (JObj (<[key := value]> m))
  | _ => Raise TypeError
  end.

(** [js.setdefault(key, default)] *)
Definition setdefault (js : json) (key : string) (default : json) : result json :=
  match js with
  | JObj m =>
      match m !! key with
      | Some _ => Ok js
      | None => Ok (JObj (<[key := default]> m))
      end
  | _ => Raise AttributeError
  end.

Definition binary64_of_Z (n : Z) : spec_float := binary_normalize 53 1024 n 0 false.

(** Truncation towards zero of a finite binary64 number. *)
Definition Z_of_binary64 (f : spec_float) : option Z :=
  match f with
  | S754_zero _ => Some 0
  | S754_finite s m e =>
      let a := if 0 <=? e then Z.pos m * 2 ^ e else Z.pos m / 2 ^ (- e) in
      Some (if s then - a else a)
  | S754_infinity _ | S754_nan => None
  end.

(** [float(v)], [None] when it raises ([ValueError], [TypeError],
    [OverflowError]). *)
Definition float `{PythonRuntime} (v : json) : option spec_float :=
  match v with
  | JBool b => Some (binary64_of_Z (if b then 1 else 0))
  | JInt n =>
      match binary64_of_Z n with
      | S754_infinity _ => None
      | f => Some f
      end
  | JFloat f => Some f
  | JStr s => float_of_str s
  | JNull | JArr _ | JObj _ => None
  end.

(** [int(v)], [None] when it raises. *)
Definition int `{PythonRuntime} (v : json) : option Z :=
  match v with
  | JBool b => Some (if b then 1 else 0)
  | JInt n => Some n
  | JFloat f => Z_of_binary64 f
  | JStr s => int_of_str s
  | JNull | JArr _ | JObj _ => None
  end.

(** [f"{v}"] *)
Definition format `{PythonRuntime} (v : json) : string :=
  match v with
  | JStr s => s
  | _ => str_of_value v
  end.

End Py.

(** ** kss.py: requests, responses and the state directory

    A request carries the two authentication headers and a body.  The state
    directory maps a user's directory and a file name in it to the JSON text
    of the file, kept as the value that [dumps] wrote and [loads] reads
    back.  User names and documents are taken as single path components. *)

Inductive body : Type :=
| NotJson              (* the content type is not JSON *)
| Malformed            (* JSON content type, the content does not parse *)
| JsonBody (js : json).

Record request := Request {
  x_auth_user : option string;
  x_auth_key : option string;
  req_body : body
}.

Definition response : Type := json * Z.

Module Kss.
Import Py.

(** A file of the state directory: the directory of its user and its name
    there.  On names that are single path components the pair stands for
    the path that pathlib joins ([Paths.kss_path] below). *)
Definition path : Type := string * string.

Definition M (A : Type) : Type :=
  gmap (string * string) json -> result A * gmap (string * string) json.

Definition ret {A} (a : A) : M A := fun fs => (Ok a, fs).

Definition lift {A} (r : result A) : M A := fun fs => (r, fs).

Definition mbind {A B} (c : M A) (k : A -> M B) : M B :=
  fun fs =>
    match c fs with
    | (Ok a, fs') => k a fs'
    | (Raise e, fs') => (Raise e, fs')
    end.

Notation "'let*' x ':=' c 'in' k" := (mbind c (fun x => k))
  (at level 10, x name, c at level 100, k at level 200).

(** [path.exists()] *)
Definition path_exists (p : path) : M bool :=
  fun fs => (Ok (bool_decide (is_Some (fs !! p))), fs).

(** [load(file)] / [loads(path.read_text())] *)
Definition load (p : path) : M json :=
  fun fs =>
    match fs !! p with
    | Some js => (Ok js, fs)
    | None => (Raise FileNotFoundError, fs)
    end.

(** [path.write_text(dumps(js))]; the parent directory is created first when
    it is missing.  The operating system is taken to accept the name (it
    refuses one that is too long or holds a NUL). *)
Definition write_text (p : path) (js : json) : M unit :=
  fun fs => (Ok tt, <[p := js]> fs).

(** [request.is_json] *)
Definition is_json (req : request) : bool :=
  match req_body req with
  | NotJson => false
  | _ => true
  end.

(** [request.get_json()] *)
Definition get_json (req : request) : M json :=
  match req_body req with
  | JsonBody js => ret js
  | Malformed => lift (Raise BadRequest)
  | NotJson => lift (Raise UnsupportedMediaType)
  end.

Definition kss_dir (user : string) : string := user.

Definition kss_path (user file_md5 : string) : path :=
  (kss_dir user, String.append file_md5 ".json").

Definition kss_auth_file (user : string) : path :=
  (kss_dir user, "auth.json").

Definition kss_auth_headers (req : request) : option string * option string :=
  let user := x_auth_user req in
  let password_md5 := x_auth_key req in
  (user, password_md5).

Definition kss_auth (req : request) : M (option string) :=
  let '(user, password_md5) := kss_auth_headers req in
  if negb (str_truthy user) then ret None else
  if negb (str_truthy password_md5) then ret None else
  let user := default "" user in
  let password_md5 := default "" password_md5 in
  let auth_file := kss_auth_file user in
  let* present := path_exists auth_file in
  if negb present then ret None else
  let* auth := load auth_file in
  let* auth_user := lift (getitem auth "x-auth-user") in
  if negb (eq_str auth_user user) then ret None else
  let* auth_key := lift (getitem auth "x-auth-key") in
  if eq_str auth_key password_md5 then ret (Some user) else ret None.

(** [jsonify] of one dict sends the dict; [jsonify] of keyword arguments
    sends them as an object, and [null] when there are none. *)
Definition jsonify_kwargs (kwargs : gmap string json) : json :=
  if Nat.eqb (size kwargs) 0 then JNull else JObj kwargs.

Definition kss_error (http_code : Z) (message : string) (code : Z) : response :=
  let error := {[ "message" := JStr message; "code" := JInt code ]} in
  (JObj error, http_code).

Definition kss_response (http_code : Z) (kwargs : gmap string json) : response :=
  (jsonify_kwargs kwargs, http_code).

Section Handlers.
Context `{PythonRuntime}.

(** [REGISTRATION_DISABLED] is read from the environment when the module is
    loaded, and the clock by [int(time())]. *)
Definition register (REGISTRATION_DISABLED : bool) (req : request) : M response :=
  if REGISTRATION_DISABLED
  then ret (kss_error 403 "User registration disabled" 3001) else
  if negb (is_json req) then ret (kss_error 403 "Invalid request" 2003) else
  let* js := get_json req in
  let* user := lift (dict_get js "username" (JStr "")) in
  if negb (truthy user && isinstance_str user)
  then ret (kss_error 403 "Invalid request" 2003) else
  let* password_md5 := lift (dict_get js "password" (JStr "")) in
  if negb (truthy password_md5) || negb (isinstance_str password_md5)
  then ret (kss_error 403 "Invalid request" 2003) else
  let auth_file := kss_auth_file (str_value user) in
  let* present := path_exists auth_file in
  if present
  then ret (kss_error 402 "Username is already registered" 2002) else
  let* _ := write_text auth_file
              (JObj {[ "x-auth-user" := user; "x-auth-key" := password_md5 ]}) in
  ret (kss_response 201 {[ "username" := user ]}).

Definition login (req : request) : M response :=
  let* user := kss_auth req in
  if str_truthy user
  then ret (kss_response 200 {[ "authorized" := JStr "OK" ]})
  else ret (kss_error 401 "Unauthorized" 2001).

Definition push (now : Z) (req : request) : M response :=
  let* user := kss_auth req in
  if negb (str_truthy user) then ret (kss_error 401 "Unauthorized" 2001) else
  let user := default "" user in
  if negb (is_json req) then ret (kss_error 403 "Invalid request" 2003) else
  let* js := get_json req in
  let* document := lift (dict_get js "document" JNull) in
  if truthy document then
    let* percentage := lift (dict_get js "percentage" JNull) in
    let* js :=
      (if truthy percentage then
         match float percentage with
         | Some f => lift (setitem js "percentage" (JFloat f))
         | None => lift (setitem js "percentage" JNull)
         end
       else ret js) in
    let* js := lift (setdefault js "progress" JNull) in
    let* js := lift (setdefault js "device" JNull) in
    let* js := lift (setdefault js "device_id" JNull) in
    let* js := lift (setitem js "timestamp" (JInt now)) in
    let path := kss_path user (format document) in
    let* _ := write_text path js in
    let* timestamp := lift (getitem js "timestamp") in
    ret (kss_response 200 {[ "document" := document; "timestamp" := timestamp ]})
  else ret (kss_error 403 "Field 'document' not provided." 2004).

Definition pull (document : string) (req : request) : M response :=
  let* user := kss_auth req in
  if negb (str_truthy user) then ret (kss_error 401 "Unauthorized" 2001) else
  let user := default "" user in
  let path := kss_path user document in
  let* present := path_exists path in
  if negb present
  then ret (kss_response 200 {[ "document" := JStr document ]}) else
  let* js := load path in
  let res : gmap string json := ∅ in
  let* percentage := lift (dict_get js "percentage" JNull) in
  let res :=
    if truthy percentage then
      match float percentage with
      | Some f => <["percentage" := JFloat f]> res
      | None => res
      end
    else res in
  let* progress := lift (dict_get js "progress" JNull) in
  let res := if truthy progress then <["progress" := progress]> res else res in
  let* device := lift (dict_get js "device" JNull) in
  let res := if truthy device then <["device" := device]> res else res in
  let* device_id := lift (dict_get js "device_id" JNull) in
  let res := if truthy device_id then <["device_id" := device_id]> res else res in
  let* timestamp := lift (dict_get js "timestamp" JNull) in
  let res :=
    if truthy timestamp then
      match int timestamp with
      | Some n => <["timestamp" := JInt n]> res
      | None => res
      end
    else res in
  ret (kss_response 200 res).

End Handlers.

End Kss.

(** ** The sync service in the specification's words *)

Module SyncSpec.
Import Py Kss.

(** The credential record that registration writes. *)
Definition credential (user key : string) : json :=
  JObj {[ "x-auth-user" := JStr user; "x-auth-key" := JStr key ]}.

(** Every auth file holds the credential record of the user whose directory
    it is in, with a non-empty name and secret. *)
Definition credentials_ok (fs : gmap (string * string) json) : Prop :=
  forall user c, fs !! kss_auth_file user = Some c ->
    user <> "" /\ exists key, key <> "" /\ c = credential user key.

(** The request names a user and a key, and the stored credential of that
    user has exactly that key. *)
Definition authenticates (req : request) (fs : gmap (string * string) json)
    (user : string) : Prop :=
  x_auth_user req = Some user /\
  exists key, x_auth_key req = Some key /\
              fs !! kss_auth_file user = Some (credential user key).

(** The comparison that [kss_auth] makes once the auth file is loaded. *)
Definition check_credentials (auth : json) (user password_md5 : string) :
    result (option string) :=
  let! auth_user := getitem auth "x-auth-user" in
  if negb (eq_str auth_user user) then Ok None else
  let! auth_key := getitem auth "x-auth-key" in
  if eq_str auth_key password_md5 then Ok (Some user) else Ok None.

(** Member [key] of a response whose body is an object. *)
Definition field_of (r : response) (key : string) : option json :=
  match fst r with
  | JObj m => m !! key
  | _ => None
  end.

(** What [push] does to the percentage of the body. *)
Definition coerce_percentage `{PythonRuntime} (p : json) : json :=
  if truthy p then
    match float p with
    | Some f => JFloat f
    | None => JNull
    end
  else p.

(** [js.setdefault(key, None)] on the members of a dict *)
Definition with_default (key : string) (m : gmap string json) :
    gmap string json :=
  match m !! key with
  | Some _ => m
  | None => <[key := JNull]> m
  end.

(** The record that a push with body [m] leaves in the store at time [now]:
    a function of the request and the clock alone. *)
Definition stored_record `{PythonRuntime} (m : gmap string json) (now : Z) :
    gmap string json :=
  let m1 :=
    match m !! "percentage" with
    | Some p => if truthy p then <["percentage" := coerce_percentage p]> m else m
    | None => m
    end in
  <["timestamp" := JInt now]>
    (with_default "device_id" (with_default "device" (with_default "progress" m1))).

(** The member [key] of a stored record as [pull] sees it: there, and not
    falsy ([None], [False], [0], [0.0], [""], [[]], [{}]). *)
Definition present_truthy (m : gmap string json) (key : string) : option json :=
  match m !! key with
  | Some v => if truthy v then Some v else None
  | None => None
  end.

(** [res[key] = v] when there is a [v] to put. *)
Definition opt_insert (key : string) (o : option json) (res : gmap string json) :
    gmap string json :=
  match o with
  | Some v => <[key := v]> res
  | None => res
  end.

(** The members of the response of [pull] for the stored record [m]. *)
Definition pull_result `{PythonRuntime} (m : gmap string json) :
    gmap string json :=
  let get key := from_option id JNull (m !! key) in
  opt_insert "timestamp"
    (if truthy (get "timestamp") then JInt <$> int (get "timestamp") else None)
  (opt_insert "device_id"
    (if truthy (get "device_id") then Some (get "device_id") else None)
  (opt_insert "device"
    (if truthy (get "device") then Some (get "device") else None)
  (opt_insert "progress"
    (if truthy (get "progress") then Some (get "progress") else None)
  (opt_insert "percentage"
    (if truthy (get "percentage") then JFloat <$> float (get "percentage")
     else None) ∅)))).

(** The calls of the HTTP interface, and the state directory after a
    sequence of them. *)
Inductive call : Type :=
| Register (REGISTRATION_DISABLED : bool) (req : request)
| Login (req : request)
| Push (now : Z) (req : request)
| Pull (document : string) (req : request).

Definition handle `{PythonRuntime} (c : call) : M response :=
  match c with
  | Register disabled req => register disabled req
  | Login req => login req
  | Push now req => push now req
  | Pull document req => pull document req
  end.

Definition run `{PythonRuntime} (calls : list call)
    (fs : gmap (string * string) json) : gmap (string * string) json :=
  fold_left (fun fs c => snd (handle c fs)) calls fs.

(** The body of the request is an object whose document formats as [d]. *)
Definition names_document `{PythonRuntime} (req : request) (d : string) : Prop :=
  exists m document,
    req_body req = JsonBody (JObj m) /\
    m !! "document" = Some document /\
    format document = d.

(** No push is for a document named [auth]. *)
Definition conforming `{PythonRuntime} (c : call) : Prop :=
  match c with
  | Push _ req => ~ names_document req "auth"
  | _ => True
  end.

(** The call is a push under the name [user] for the document [d]. *)
Definition pushes `{PythonRuntime} (user d : string) (c : call) : Prop :=
  match c with
  | Push _ req => x_auth_user req = Some user /\ names_document req d
  | _ => False
  end.

Definition unauthorized : response :=
  (JObj {[ "message" := JStr "Unauthorized"; "code" := JInt 2001 ]}, 401).

Definition missing_document : response :=
  (JObj {[ "message" := JStr "Field 'document' not provided.";
           "code" := JInt 2004 ]}, 403).

Definition invalid_request : response :=
  (JObj {[ "message" := JStr "Invalid request"; "code" := JInt 2003 ]}, 403).

Definition already_registered : response :=
  (JObj {[ "message" := JStr "Username is already registered";
           "code" := JInt 2002 ]}, 402).

End SyncSpec.

(** A runtime to evaluate the handlers on concrete requests: it converts
    plain decimal integer literals ([-12], [007]) and formats [None],
    booleans and integers.  Python accepts more number syntax than this. *)
Module SampleRuntime.

Definition int_of_decimal (s : string) : option Z :=
  option_map Z.of_int (NilZero.int_of_string s).

Definition float_of_decimal (s : string) : option spec_float :=
  match int_of_decimal s with
  | Some n =>
      match Py.binary64_of_Z n with
      | S754_infinity _ => None
      | f => Some f
      end
  | None => None
  end.

Definition str_of (v : json) : string :=
  match v with
  | JNull => "None"
  | JBool true => "True"
  | JBool false => "False"
  | JInt n => NilZero.string_of_int (Z.to_int n)
  | _ => ""
  end.

#[export] Instance runtime : PythonRuntime :=
  {| float_of_str := float_of_decimal;
     int_of_str := int_of_decimal;
     str_of_value := str_of |}.

(** A user, her registration, and the state directory after it. *)
Definition alice_key : string := "3858f62230ac3c915f300c664312c63f".

Definition registration : request :=
  Request None None
    (JsonBody (JObj {[ "username" := JStr "alice";
                       "password" := JStr alice_key ]})).

Definition registered : gmap (string * string) json :=
  snd (Kss.register false registration ∅).

Definition as_alice (b : body) : request :=
  Request (Some "alice") (Some alice_key) b.

(** The float 0.4045 *)
Definition f0_4045 : spec_float := S754_finite false 7286824197085463 (-54).

(** The push of the project's README, with a timestamp of the client's. *)
Definition progress_body : gmap string json :=
  {[ "document" := JStr "22b3308b1618273ad77a98fe29ca4600";
     "percentage" := JFloat f0_4045;
     "progress" := JStr "/body/DocFragment[26]/body/section/p[5]/text().0";
     "device" := JStr "KindlePaperWhite3";
     "device_id" := JStr "6B344CE498AE402096F5AEB4154C1DBB";
     "timestamp" := JInt 1 ]}.

(** A push at the start of a book, from a client that sends nothing else. *)
Definition start_body : gmap string json :=
  {[ "document" := JStr "d1"; "percentage" := JInt 0 ]}.

Definition started : gmap (string * string) json :=
  snd (Kss.push 1751935136 (as_alice (JsonBody (JObj start_body))) registered).

(** The record that this push leaves in the store. *)
Definition start_record : gmap string json :=
  {[ "document" := JStr "d1"; "percentage" := JInt 0;
     "progress" := JNull; "device" := JNull; "device_id" := JNull;
     "timestamp" := JInt 1751935136 ]}.

End SampleRuntime.

(** Sequences of calls on which the properties are run. *)
Module SampleCalls.
Import SampleRuntime.

(** Alice registers, then pushes her position at the start of a book. *)
Definition session : list SyncSpec.call :=
  [ SyncSpec.Register false registration;
    SyncSpec.Push 1751935136 (as_alice (JsonBody (JObj start_body))) ].

(** The same store with a file of another user in it. *)
Definition with_bob : gmap (string * string) json :=
  <[Kss.kss_path "bob" "d1" := JObj start_record]> registered.

(** A push whose document is named like the auth file. *)
Definition auth_body : gmap string json :=
  {[ "document" := JStr "auth" ]}.

End SampleCalls.

(** ** The command lines of the two example scripts

    [click.File(mode="rb")] hands the command an open binary stream, which
    cannot seek when it is the standard input.  The result is the text that
    [click.secho] prints. *)

Module Cli.
Import Io.

(** example/partial_md5.py *)
Definition md5digest (file : BinaryIO) (seekable : bool) : result string :=
  let file := if negb seekable then BytesIO (fst (read file (-1))) else file in
  PartialMd5.partial_md5 file PartialMd5.default_step PartialMd5.default_size.

(** example/md5name.py *)
Definition md5name (file : BinaryIO) (seekable : bool) : string :=
  let file := if negb seekable then BytesIO (fst (read file (-1))) else file in
  Md5name.md5 file.

(** [partial_md5] up to its last line: the accumulator whose [hexdigest] it
    returns. *)
Definition accumulate (file : BinaryIO) (step size : Z) :
    result Hashlib.md5_object :=
  let m := Hashlib.md5 in
  let '(sample, file) := read file size in
  let m := Hashlib.update m sample in
  PartialMd5.sample_loop (range 0 10) file step size m.

(** A string of lowercase hexadecimal digits. *)
Definition lowercase_hex (d : string) : Prop :=
  Forall (fun c => In c (list_ascii_of_string "0123456789abcdef"))
         (list_ascii_of_string d).

End Cli.

(** ** More about the state directory *)

Module StoreSpec.
Import Py Kss SyncSpec.

(** The five members that [pull] can return. *)
Definition pulled_member (key : string) : Prop :=
  key = "percentage" \/ key = "progress" \/ key = "device" \/
  key = "device_id" \/ key = "timestamp".

End StoreSpec.

(** ** pathlib: the paths that the server joins

    [kss_root() / user] and [kss_dir(user) / f"{file_md5}.json"] are joins of
    pure POSIX paths: the right operand is split at its slashes, empty
    components and [.] are dropped, [..] is kept as it is, and an operand
    that starts with a slash replaces the path on its left.  Paths compare
    by their root and their components, case and all. *)

Module Pathlib.

Record PurePath := { root : string; names : list string }.

(** [s.split("/")] *)
Fixpoint split (s : string) : list string :=
  match s with
  | EmptyString => [EmptyString]
  | String c s' =>
      if Ascii.eqb c "/" then EmptyString :: split s'
      else
        match split s' with
        | w :: ws => String c w :: ws
        | [] => [String c EmptyString]
        end
  end.

Definition starts_with_slash (s : string) : bool :=
  match s with
  | String c _ => Ascii.eqb c "/"
  | EmptyString => false
  end.

(** The root of a path string: none for a relative path, [//] for exactly
    two leading slashes, [/] otherwise. *)
Definition root_of (s : string) : string :=
  match s with
  | String c t =>
      if Ascii.eqb c "/" then
        if starts_with_slash t then
          match t with
          | String _ u => if starts_with_slash u then "/" else "//"
          | EmptyString => "/"
          end
        else "/"
      else ""
  | EmptyString => ""
  end.

(** The components that pathlib keeps of a path string. *)
Definition parse (s : string) : list string :=
  List.filter (fun x => negb (String.eqb x "") && negb (String.eqb x "."))
              (split s).

(** [p / s] *)
Definition joinpath (p : PurePath) (s : string) : PurePath :=
  if String.eqb (root_of s) ""
  then {| root := root p; names := names p ++ parse s |}
  else {| root := root_of s; names := parse s |}.

End Pathlib.

(** The three path functions of kss.py on joined paths, for a state root
    [kss_root], and the names on which a joined path is the user's directory
    followed by one file name: a name without a slash that is not empty,
    [.] or [..]. *)

Module Paths.
Import Pathlib.

Definition kss_dir (kss_root : PurePath) (user : string) : PurePath :=
  joinpath kss_root user.

Definition kss_path (kss_root : PurePath) (user file_md5 : string) : PurePath :=
  joinpath (kss_dir kss_root user) (String.append file_md5 ".json").

Definition kss_auth_file (kss_root : PurePath) (user : string) : PurePath :=
  joinpath (kss_dir kss_root user) "auth.json".

Fixpoint slash_free (s : string) : bool :=
  match s with
  | EmptyString => true
  | String c s' => negb (Ascii.eqb c "/") && slash_free s'
  end.

Definition component (s : string) : bool :=
  slash_free s && negb (String.eqb s "") && negb (String.eqb s ".") &&
  negb (String.eqb s "..").

(** A registration whose user name is one component. *)
Definition plain_registration (req : request) : Prop :=
  forall m user,
    req_body req = JsonBody (JObj m) ->
    m !! "username" = Some (JStr user) -> component user = true.

(** A push whose user name is one component and whose document has no
    slash. *)
Definition plain_push `{PythonRuntime} (req : request) : Prop :=
  (forall user, x_auth_user req = Some user -> component user = true) /\
  (forall d, SyncSpec.names_document req d -> slash_free d = true).

(** The calls that write name their files by single components. *)
Definition plain `{PythonRuntime} (c : SyncSpec.call) : Prop :=
  match c with
  | SyncSpec.Register _ req => plain_registration req
  | SyncSpec.Push _ req => plain_push req
  | _ => True
  end.

(** A state root to evaluate the joins on. *)
Definition sample_root : PurePath :=
  {| root := "/"; names := ["var"; "lib"; "kss"] |}.

End Paths.

(** * Properties of the fingerprint engine *)

Section Fingerprint.
Import Io PartialMd5 Md5name FingerprintSpec.

Lemma update_fed m data : Hashlib.fed (Hashlib.update m data) = Hashlib.fed m ++ data.
Proof. reflexivity. Qed.

Lemma update_update m a b :
  Hashlib.update (Hashlib.update m a) b = Hashlib.update m (a ++ b).
Proof. unfold Hashlib.update. simpl. by rewrite <- app_assoc. Qed.

Lemma shiftl_pow4 step i : 0 <= i -> Z.shiftl step (2 * i) = step * 4 ^ i.
Proof.
  intros Hi. rewrite Z.shiftl_mul_pow2 by lia.
  by rewrite Z.pow_mul_r by lia.
Qed.

Lemma read_content file size : content (snd (read file size)) = content file.
Proof. unfold read. by destruct (_ <=? 0). Qed.

Lemma read_window s off size :
  0 <= off -> 0 <= size -> fst (read (File s off) size) = window s off size.
Proof.
  intros Hoff Hsize. unfold read, window. simpl.
  destruct (Z.leb_spec (Z.of_nat (length s) - off) 0) as [Hn|Hn]; simpl.
  - rewrite drop_ge by lia. by rewrite take_nil.
  - replace (size <? 0) with false by (symmetry; apply Z.ltb_ge; lia). simpl.
    destruct (Z.ltb_spec (Z.of_nat (length s) - off) size) as [Hlt|Hge]; [|done].
    rewrite !take_ge; [done | |]; rewrite length_drop; lia.
Qed.

Lemma bytes_truthy_nil (b : list byte) : bytes_truthy b = false <-> b = [].
Proof. destruct b; simpl; split; congruence. Qed.

Lemma sample_loop_spec indices : forall file step size m,
  0 <= step -> 0 <= size -> 0 <= pos file ->
  sample_loop indices file step size m =
  Ok (fold_left Hashlib.update
        (sparse_samples (content file) step size indices) m).
Proof.
  induction indices as [|i indices IH]; intros file step size m Hstep Hsize Hpos;
    simpl; [done|].
  unfold seek.
  assert (Hsh : 0 <= Z.shiftl step (2 * i)) by (by apply Z.shiftl_nonneg).
  replace (Z.shiftl step (2 * i) <? 0) with false
    by (symmetry; apply Z.ltb_ge; lia).
  simpl.
  pose proof (read_window (content file) _ size Hsh Hsize) as Hw.
  pose proof (read_content (File (content file) (Z.shiftl step (2 * i))) size) as Hc.
  destruct (read (File (content file) (Z.shiftl step (2 * i))) size)
    as [sample file'] eqn:Hread.
  simpl in Hw, Hc. subst sample.
  destruct (window (content file) (Z.shiftl step (2 * i)) size) as [|b w] eqn:Hwin;
    simpl; [done|].
  rewrite IH; [by rewrite Hc | done | done |].
  revert Hread. unfold read. simpl.
  destruct (_ <=? 0); [intros [= _ <-]; simpl; lia|].
  intros [= _ <-]. simpl.
  destruct (_ || _); lia.
Qed.

Lemma fold_update (samples : list (list byte)) : forall m,
  fold_left Hashlib.update samples m = Hashlib.update m (concat samples).
Proof.
  induction samples as [|w samples IH]; intros m; simpl.
  - unfold Hashlib.update. rewrite app_nil_r. by destruct m.
  - by rewrite IH, update_update.
Qed.

Lemma partial_md5_from file step size :
  0 <= step -> 0 <= size -> 0 <= pos file ->
  partial_md5 file step size =
  Ok (Hashlib.hexdigest
        (Hashlib.update Hashlib.md5
           (window (content file) (pos file) size ++
            concat (sparse_samples (content file) step size (range 0 10))))).
Proof.
  intros Hstep Hsize Hpos. unfold partial_md5.
  destruct (read file size) as [sample file'] eqn:Hread.
  assert (Hw : sample = window (content file) (pos file) size).
  { rewrite <- read_window by done. destruct file. simpl. by rewrite Hread. }
  assert (Hc : content file' = content file).
  { by rewrite <- (read_content file size), Hread. }
  assert (Hp : 0 <= pos file').
  { revert Hread. unfold read. destruct (_ <=? 0); [by intros [= _ <-]|].
    intros [= _ <-]. simpl. destruct (_ || _); lia. }
  rewrite sample_loop_spec by done. cbn [bind].
  by rewrite Hc, fold_update, update_update, Hw.
Qed.

(** C1.  On a stream opened at its start, with a non-negative step and
    sample size, [partial_md5] returns the MD5 hex digest of: the
    [size] bytes at offset 0, followed, for i = 0..9 in order, by the up to
    [size] bytes at offset [step << (2*i)], stopping without accumulating at
    the first such read that yields no bytes. *)
Theorem partial_md5_algorithm (s : list byte) (step size : Z) :
  0 <= step -> 0 <= size ->
  partial_md5 (BytesIO s) step size = Ok (sparseDigest s step size).
Proof.
  intros Hstep Hsize.
  by rewrite partial_md5_from.
Qed.

Lemma partial_md5_BytesIO (s : list byte) (step size : Z) :
  0 <= step -> 0 <= size ->
  partial_md5 (BytesIO s) step size =
  Ok (Hashlib.hex (Hashlib.digest (hashed_bytes s step size))).
Proof. intros Hstep Hsize. by rewrite partial_md5_from. Qed.

Lemma partial_md5_algorithm_witness :
  partial_md5 (BytesIO (bytes_of "abc")) 1 2 =
  Ok (sparseDigest (bytes_of "abc") 1 2).
Proof. apply partial_md5_algorithm; lia. Defined.

(** The loop stops at the first empty read: later windows are not hashed
    even where they hold bytes (only possible for a zero sample size, where
    every window is empty). The samples are exactly the non-empty windows
    before the first empty one. *)
Lemma sparse_samples_nonempty s step size indices :
  Forall (fun w => w <> []) (sparse_samples s step size indices).
Proof.
  induction indices as [|i indices IH]; simpl; [constructor|].
  destruct (window s (Z.shiftl step (2 * i)) size) eqn:E; constructor; done.
Qed.

(** A negative step makes the first seek raise. *)
Lemma partial_md5_negative_step file step size :
  step < 0 -> partial_md5 file step size = Raise ValueError.
Proof.
  intros Hstep. unfold partial_md5.
  destruct (read file size) as [sample file'].
  change (range 0 10) with (0 :: range 1 10).
  cbn [sample_loop]. unfold seek.
  replace (Z.shiftl step (2 * 0) <? 0) with true; [done|].
  symmetry. apply Z.ltb_lt. by rewrite Z.shiftl_0_r.
Qed.

Lemma read_spec file size :
  0 <= pos file -> 0 <= size ->
  read file size =
  (window (content file) (pos file) size,
   File (content file)
        (pos file + Z.of_nat (length (window (content file) (pos file) size)))).
Proof.
  intros Hpos Hsize. destruct file as [s p]. simpl in *.
  rewrite <- (read_window s p size) by done.
  unfold read. simpl.
  destruct (Z.leb_spec (Z.of_nat (length s) - p) 0) as [Hn|Hn]; simpl.
  - by rewrite Z.add_0_r.
  - replace (size <? 0) with false by (symmetry; apply Z.ltb_ge; lia). simpl.
    rewrite length_take, length_drop.
    destruct (Z.ltb_spec (Z.of_nat (length s) - p) size); do 2 f_equal; lia.
Qed.

Lemma take_drop_length (n : nat) (l : list byte) :
  take n l ++ drop (length (take n l)) l = l.
Proof.
  rewrite length_take. destruct (Nat.le_gt_cases n (length l)).
  - rewrite Nat.min_l by done. apply take_drop.
  - rewrite Nat.min_r by lia. rewrite drop_all, take_ge by lia. apply app_nil_r.
Qed.

Lemma update_nil m : Hashlib.update m [] = m.
Proof. destruct m. unfold Hashlib.update. simpl. by rewrite app_nil_r. Qed.

(** [md5] hashes everything from the current position to the end, whatever
    the chunking. *)
Lemma md5_loop_spec file sum :
  0 <= pos file ->
  md5_loop file sum =
  Hashlib.update sum (skipn (Z.to_nat (pos file)) (content file)).
Proof.
  funelim (md5_loop file sum); intros Hpos.
  - match goal with
    | IH : _ -> md5_loop _ _ = _ |- _ => rename IH into IHloop
    end.
    pose proof Hread as Hrd. rewrite read_spec in Hrd by lia.
    injection Hrd as Hd Hf.
    rewrite IHloop by (rewrite <- Hf; simpl; lia).
    rewrite <- Hf. simpl. rewrite update_update. f_equal.
    rewrite <- Hd. unfold window.
    rewrite Z2Nat.inj_add, Nat2Z.id by lia.
    rewrite <- drop_drop. apply take_drop_length.
  - pose proof Hread as Hrd. rewrite read_spec in Hrd by lia.
    injection Hrd as Hd Hf.
    pose proof (proj1 (bytes_truthy_nil data) e) as Hnil.
    rewrite Hnil in Hd. rename Hd into e'.
    unfold window in e'.
    destruct (drop (Z.to_nat (pos file)) (content file)) eqn:Hdrop.
    + by rewrite update_nil.
    + change (Z.to_nat 4096) with (S (Z.to_nat 4095)) in e'. discriminate.
Qed.

Lemma md5_loop_spec_digest file :
  0 <= pos file ->
  md5 file =
  Hashlib.hex (Hashlib.digest (skipn (Z.to_nat (pos file)) (content file))).
Proof. intros Hpos. unfold md5. by rewrite md5_loop_spec. Qed.

Lemma md5_BytesIO (s : list byte) : md5 (BytesIO s) = fullDigest s.
Proof.
  unfold md5. rewrite md5_loop_spec by (simpl; lia). reflexivity.
Qed.

(** C7.  With the default step and sample size, on a stream shorter than
    the sample size the first read returns the whole content, the read of
    the first loop iteration (after the seek to [1024 << 0]) returns nothing,
    so the loop ends there, and the result is the full-content digest that
    [md5] of md5name.py computes. *)
Theorem partial_md5_small_file (s : list byte) :
  Z.of_nat (length s) < default_size ->
  fst (read (BytesIO s) default_size) = s /\
  (exists file1,
      seek (snd (read (BytesIO s) default_size))
           (Z.shiftl default_step (2 * 0)) = Ok file1 /\
      fst (read file1 default_size) = []) /\
  partial_md5 (BytesIO s) default_step default_size = Ok (md5 (BytesIO s)).
Proof.
  unfold default_size, default_step. intros Hlen.
  assert (Hw0 : window s 0 1024 = s).
  { unfold window. simpl drop. apply take_ge. lia. }
  assert (Hw1 : window s (Z.shiftl 1024 (2 * 0)) 1024 = []).
  { unfold window. rewrite drop_ge; [apply take_nil|].
    change (Z.shiftl 1024 (2 * 0)) with 1024. lia. }
  split; [|split].
  - unfold BytesIO. by rewrite read_window.
  - eexists. split; [reflexivity|].
    pose proof (read_content (BytesIO s) 1024) as Hc. simpl in Hc.
    rewrite Hc. by rewrite read_window.
  - rewrite partial_md5_BytesIO, md5_BytesIO by lia.
    unfold fullDigest, hashed_bytes.
    change (range 0 10) with (0 :: range 1 10). cbn [sparse_samples].
    rewrite Hw0, Hw1. simpl concat. by rewrite app_nil_r.
Qed.

Lemma partial_md5_small_file_witness :
  partial_md5 (BytesIO (bytes_of "abc")) default_step default_size =
  Ok (md5 (BytesIO (bytes_of "abc"))).
Proof. apply (partial_md5_small_file (bytes_of "abc")). vm_compute. reflexivity. Defined.

(** *** Which bytes the sparse fingerprint looks at *)

Lemma window_lookup (s : list byte) off size (j : nat) :
  0 <= off ->
  window s off size !! j =
  if decide (j < Z.to_nat size)%nat then s !! (Z.to_nat off + j)%nat else None.
Proof.
  intros Hoff. unfold window. case_decide.
  - by rewrite lookup_take_lt, lookup_drop by done.
  - apply lookup_take_ge. lia.
Qed.

Lemma window_ext (s1 s2 : list byte) off size :
  0 <= off ->
  (forall k : nat, in_window off size (Z.of_nat k) -> s1 !! k = s2 !! k) ->
  window s1 off size = window s2 off size.
Proof.
  intros Hoff Hagree. apply list_eq. intros j.
  rewrite !window_lookup by done. case_decide; [|done].
  apply Hagree. unfold in_window. lia.
Qed.

Lemma sparse_samples_ext (s1 s2 : list byte) step size indices :
  0 <= step ->
  Forall (fun i => 0 <= i < 10) indices ->
  (forall k : nat, sampled step size (Z.of_nat k) -> s1 !! k = s2 !! k) ->
  sparse_samples s1 step size indices = sparse_samples s2 step size indices.
Proof.
  intros Hstep Hind Hagree.
  induction Hind as [|i indices Hi Hind IH]; simpl; [done|].
  rewrite (window_ext s1 s2).
  - by rewrite IH.
  - apply Z.shiftl_nonneg. lia.
  - intros k Hk. apply Hagree. right. exists i.
    rewrite shiftl_pow4 in Hk by lia. done.
Qed.

Lemma range_0_10_bounds : Forall (fun i => 0 <= i < 10) (range 0 10).
Proof. repeat constructor; lia. Qed.

(** X6.  Two streams that agree on every byte of the sampled windows have
    the same sparse fingerprint: bytes outside the windows are never read. *)
Theorem partial_md5_windows_only (s1 s2 : list byte) (step size : Z) :
  0 <= size ->
  length s1 = length s2 ->
  (forall k : nat, sampled step size (Z.of_nat k) -> s1 !! k = s2 !! k) ->
  partial_md5 (BytesIO s1) step size = partial_md5 (BytesIO s2) step size.
Proof.
  intros Hsize _ Hagree.
  destruct (Z.lt_ge_cases step 0) as [Hneg|Hstep].
  - by rewrite !partial_md5_negative_step.
  - rewrite !partial_md5_BytesIO by done.
    unfold hashed_bytes.
    rewrite (window_ext s1 s2 0 size); [|done|].
    + by rewrite (sparse_samples_ext s1 s2) by auto using range_0_10_bounds.
    + intros k Hk. apply Hagree. by left.
Qed.

Lemma window_length (s : list byte) off size :
  length (window s off size) =
  Nat.min (Z.to_nat size) (length s - Z.to_nat off).
Proof. unfold window. by rewrite length_take, length_drop. Qed.

Lemma window_nonempty (s : list byte) off size :
  0 < size -> (Z.to_nat off < length s)%nat -> window s off size <> [].
Proof.
  intros Hsize Hoff Hnil. apply (f_equal length) in Hnil.
  rewrite window_length in Hnil. simpl in Hnil. lia.
Qed.

Lemma sparse_samples_lengths (s1 s2 : list byte) step size indices :
  length s1 = length s2 ->
  Forall2 (fun a b : list byte => length a = length b)
          (sparse_samples s1 step size indices)
          (sparse_samples s2 step size indices).
Proof.
  intros Hlen. induction indices as [|i indices IH]; simpl; [constructor|].
  pose proof (window_length s1 (Z.shiftl step (2 * i)) size) as H1.
  pose proof (window_length s2 (Z.shiftl step (2 * i)) size) as H2.
  rewrite Hlen, <- H2 in H1.
  destruct (window s1 _ size), (window s2 _ size); try discriminate;
    constructor; done.
Qed.

Lemma concat_inj_lengths (l1 l2 : list (list byte)) :
  Forall2 (fun a b : list byte => length a = length b) l1 l2 ->
  concat l1 = concat l2 -> l1 = l2.
Proof.
  induction 1 as [|a b l1 l2 Hab Hl IH]; simpl; [done|].
  intros Heq. apply app_inj_1 in Heq as [-> Heq]; [|done].
  by rewrite IH.
Qed.

Lemma pow4_mono step (a i : nat) :
  0 <= step -> (a <= i)%nat -> step * 4 ^ Z.of_nat a <= step * 4 ^ Z.of_nat i.
Proof.
  intros Hstep Hai. apply Z.mul_le_mono_nonneg_l; [done|].
  apply Z.pow_le_mono_r; lia.
Qed.

(** As long as offset [k] lies inside the stream, no window at or before it
    is empty, so the loop has not stopped before reaching it. *)
Lemma sparse_samples_window (s1 s2 : list byte) step size (k : nat) n :
  forall a i : nat,
  0 <= step -> 0 < size -> length s1 = length s2 -> (k < length s1)%nat ->
  sparse_samples s1 step size (List.map Z.of_nat (seq a n)) =
  sparse_samples s2 step size (List.map Z.of_nat (seq a n)) ->
  (a <= i < a + n)%nat -> step * 4 ^ Z.of_nat i <= Z.of_nat k ->
  window s1 (step * 4 ^ Z.of_nat i) size = window s2 (step * 4 ^ Z.of_nat i) size.
Proof.
  induction n as [|n IH]; intros a i Hstep Hsize Hlen Hk Heq Hi Hoff; [lia|].
  simpl in Heq. rewrite shiftl_pow4 in Heq by lia.
  pose proof (pow4_mono step a i Hstep ltac:(lia)) as Hmono.
  assert (Hpos : 0 <= step * 4 ^ Z.of_nat a) by (apply Z.mul_nonneg_nonneg; lia).
  pose proof (window_nonempty s1 (step * 4 ^ Z.of_nat a) size Hsize ltac:(lia)) as Hne1.
  pose proof (window_nonempty s2 (step * 4 ^ Z.of_nat a) size Hsize ltac:(lia)) as Hne2.
  destruct (window s1 (step * 4 ^ Z.of_nat a) size) as [|b1 w1] eqn:E1; [done|].
  destruct (window s2 (step * 4 ^ Z.of_nat a) size) as [|b2 w2] eqn:E2; [done|].
  injection Heq as Hb Hw Hrest.
  destruct (decide (i = a)) as [->|Hia].
  - rewrite E1, E2. by subst.
  - apply (IH (S a) i); auto with lia.
Qed.

(** Changing a byte that lies inside a sampled window changes the byte
    string handed to MD5. *)
Theorem mutation_changes_hashed_bytes (s1 s2 : list byte) step size (k : nat) :
  0 <= step -> 0 <= size -> length s1 = length s2 -> (k < length s1)%nat ->
  sampled step size (Z.of_nat k) ->
  s1 !! k <> s2 !! k ->
  hashed_bytes s1 step size <> hashed_bytes s2 step size.
Proof.
  intros Hstep Hsize Hlen Hk Hsampled Hdiff Heq. unfold hashed_bytes in Heq.
  apply app_inj_1 in Heq as [Hw0 Hc]; [|by rewrite !window_length, Hlen].
  apply concat_inj_lengths in Hc; [|by apply sparse_samples_lengths].
  destruct Hsampled as [Hin | (i & Hi & Hin)]; unfold in_window in Hin.
  - apply (f_equal (fun w => w !! k)) in Hw0.
    rewrite !window_lookup in Hw0 by done.
    rewrite !decide_True in Hw0 by lia. exact (Hdiff Hw0).
  - assert (Hw : window s1 (step * 4 ^ i) size = window s2 (step * 4 ^ i) size).
    { replace i with (Z.of_nat (Z.to_nat i)) by lia.
      apply (sparse_samples_window s1 s2 step size k 10 0%nat); try done; try lia.
      rewrite Z2Nat.id by lia. lia. }
    assert (Hoff : 0 <= step * 4 ^ i) by (apply Z.mul_nonneg_nonneg; lia).
    apply (f_equal (fun w => w !! (k - Z.to_nat (step * 4 ^ i))%nat)) in Hw.
    rewrite !window_lookup in Hw by done.
    rewrite !decide_True in Hw by lia.
    replace (Z.to_nat (step * 4 ^ i) + (k - Z.to_nat (step * 4 ^ i)))%nat
      with k in Hw by lia.
    exact (Hdiff Hw).
Qed.

(** Hence a mutation inside a sampled window can leave the fingerprint
    unchanged only through a collision of MD5 itself: two different byte
    strings with the same digest. *)
Corollary mutation_unchanged_is_collision (s1 s2 : list byte) step size (k : nat) :
  0 <= step -> 0 <= size -> length s1 = length s2 -> (k < length s1)%nat ->
  sampled step size (Z.of_nat k) ->
  s1 !! k <> s2 !! k ->
  partial_md5 (BytesIO s1) step size = partial_md5 (BytesIO s2) step size ->
  hashed_bytes s1 step size <> hashed_bytes s2 step size /\
  Hashlib.hex (Hashlib.digest (hashed_bytes s1 step size)) =
  Hashlib.hex (Hashlib.digest (hashed_bytes s2 step size)).
Proof.
  intros Hstep Hsize Hlen Hk Hsampled Hdiff Hsame. split.
  - by apply (mutation_changes_hashed_bytes s1 s2 step size k).
  - rewrite !partial_md5_BytesIO in Hsame by done.
    by injection Hsame.
Qed.

End Fingerprint.

(** * Properties of the sync service *)

Section Sync.
Context `{PythonRuntime}.
Import Py Kss SyncSpec.

Lemma str_truthy_Some (s : string) : str_truthy (Some s) = true <-> s <> "".
Proof.
  simpl. destruct (String.eqb_spec s ""); simpl; split; congruence.
Qed.

Lemma eq_str_true (v : json) (s : string) : eq_str v s = true <-> v = JStr s.
Proof.
  destruct v; simpl; try (split; congruence).
  rewrite String.eqb_eq. split; congruence.
Qed.

Lemma credential_user user key :
  getitem (credential user key) "x-auth-user" = Ok (JStr user).
Proof. unfold credential, getitem. by rewrite lookup_insert_eq. Qed.

Lemma credential_key user key :
  getitem (credential user key) "x-auth-key" = Ok (JStr key).
Proof.
  unfold credential, getitem.
  rewrite lookup_insert_ne by done. by rewrite lookup_singleton_eq.
Qed.

(** [kss_auth] only reads the state directory. *)
Lemma kss_auth_unfold req fs :
  kss_auth req fs =
  (if str_truthy (x_auth_user req) && str_truthy (x_auth_key req) then
     match fs !! kss_auth_file (default "" (x_auth_user req)) with
     | None => Ok None
     | Some auth =>
         check_credentials auth (default "" (x_auth_user req))
                                (default "" (x_auth_key req))
     end
   else Ok None, fs).
Proof.
  unfold kss_auth, kss_auth_headers.
  destruct (str_truthy (x_auth_user req)); simpl; [|done].
  destruct (str_truthy (x_auth_key req)); simpl; [|done].
  unfold mbind, path_exists, load.
  destruct (fs !! kss_auth_file (default "" (x_auth_user req))) as [auth|] eqn:E;
    simpl; [|done].
  rewrite E. unfold check_credentials, lift.
  destruct (getitem auth "x-auth-user") as [auth_user|]; simpl; [|done].
  destruct (eq_str auth_user _); simpl; [|done].
  destruct (getitem auth "x-auth-key") as [auth_key|]; simpl; [|done].
  by destruct (eq_str auth_key _).
Qed.

Lemma kss_auth_reads req fs : snd (kss_auth req fs) = fs.
Proof. by rewrite kss_auth_unfold. Qed.

(** A successful authentication returns the non-empty user of the header. *)
Lemma kss_auth_Some req fs fs' user :
  kss_auth req fs = (Ok (Some user), fs') ->
  x_auth_user req = Some user /\ str_truthy (Some user) = true /\ fs' = fs.
Proof.
  rewrite kss_auth_unfold. intros [= Hr <-].
  destruct (x_auth_user req) as [u|]; simpl in Hr; [|done].
  destruct (negb (String.eqb u "")) eqn:Hu; simpl in Hr; [|done].
  destruct (str_truthy (x_auth_key req)); [|done].
  assert (u = user) as ->; [|done].
  destruct (fs !! kss_auth_file u) as [auth|]; [|done].
  unfold check_credentials in Hr.
  destruct (getitem auth "x-auth-user"); simpl in Hr; [|done].
  destruct (eq_str _ u); simpl in Hr; [|done].
  destruct (getitem auth "x-auth-key"); simpl in Hr; [|done].
  destruct (eq_str _ _); congruence.
Qed.

Lemma credential_inj user key key' :
  credential user key = credential user key' -> key = key'.
Proof.
  intros Heq. apply (f_equal (fun c => getitem c "x-auth-key")) in Heq.
  rewrite !credential_key in Heq. congruence.
Qed.

Lemma check_credential user key key' :
  check_credentials (credential user key') user key =
  Ok (if String.eqb key' key then Some user else None).
Proof.
  unfold check_credentials. rewrite credential_user. cbn [bind eq_str].
  rewrite String.eqb_refl. cbn [negb]. rewrite credential_key. cbn [bind eq_str].
  by destruct (String.eqb key' key).
Qed.

Lemma kss_auth_iff req fs user :
  credentials_ok fs ->
  kss_auth req fs = (Ok (Some user), fs) <-> authenticates req fs user.
Proof.
  intros Hok. split.
  - intros Hauth. destruct (kss_auth_Some _ _ _ _ Hauth) as (Hu & _ & _).
    split; [done|].
    rewrite kss_auth_unfold, Hu in Hauth. simpl in Hauth.
    destruct (negb (String.eqb user "")); simpl in Hauth; [|done].
    destruct (x_auth_key req) as [key|]; simpl in Hauth; [|done].
    destruct (negb (String.eqb key "")); simpl in Hauth; [|done].
    destruct (fs !! kss_auth_file user) as [auth|] eqn:Hfile; [|done].
    destruct (Hok _ _ Hfile) as (Hne & key' & Hne' & Hcred). subst auth.
    rewrite check_credential in Hauth.
    destruct (String.eqb_spec key' key) as [Heq|]; [|done].
    subst key'. by exists key.
  - intros (Hu & key & Hk & Hfile).
    destruct (Hok _ _ Hfile) as (Huser & key' & Hkey & Heq).
    apply credential_inj in Heq. subst key'.
    rewrite kss_auth_unfold, Hu, Hk. simpl.
    apply String.eqb_neq in Huser, Hkey. rewrite Huser, Hkey. simpl.
    rewrite Hfile, check_credential. by rewrite String.eqb_refl.
Qed.

Lemma kss_auth_total req fs :
  credentials_ok fs ->
  kss_auth req fs = (Ok None, fs) \/
  exists user, kss_auth req fs = (Ok (Some user), fs).
Proof.
  intros Hok. rewrite kss_auth_unfold.
  destruct (str_truthy (x_auth_user req) && str_truthy (x_auth_key req));
    [|by left].
  destruct (fs !! kss_auth_file _) as [auth|] eqn:Hfile; [|by left].
  destruct (Hok _ _ Hfile) as (Hne & key' & Hne' & Hcred). subst auth.
  rewrite check_credential. destruct (String.eqb key' _); eauto.
Qed.

Lemma push_unauthorized now req fs :
  kss_auth req fs = (Ok None, fs) -> push now req fs = (Ok unauthorized, fs).
Proof. intros Hauth. unfold push, mbind. by rewrite Hauth. Qed.

Lemma pull_unauthorized document req fs :
  kss_auth req fs = (Ok None, fs) ->
  pull document req fs = (Ok unauthorized, fs).
Proof. intros Hauth. unfold pull, mbind. by rewrite Hauth. Qed.

(** In a state directory whose auth files are credential records,
    authentication of a request succeeds exactly when it carries both
    headers, a credential is stored for the named user, and the stored
    secret equals the supplied key; in every other case [push] and [pull]
    answer with one and the same 401 response, code 2001, and leave the
    store alone. *)
Theorem authentication_exact req fs :
  credentials_ok fs ->
  (forall user,
      kss_auth req fs = (Ok (Some user), fs) <-> authenticates req fs user) /\
  ((~ exists user, authenticates req fs user) ->
   kss_auth req fs = (Ok None, fs) /\
   forall now document,
     push now req fs =
       (Ok (JObj {[ "message" := JStr "Unauthorized"; "code" := JInt 2001 ]},
            401), fs) /\
     pull document req fs =
       (Ok (JObj {[ "message" := JStr "Unauthorized"; "code" := JInt 2001 ]},
            401), fs)).
Proof.
  intros Hok. split.
  - intros user. by apply kss_auth_iff.
  - intros Hnone.
    assert (Hauth : kss_auth req fs = (Ok None, fs)).
    { destruct (kss_auth_total req fs Hok) as [|[user Hauth]]; [done|].
      destruct Hnone. exists user. by apply kss_auth_iff. }
    split; [done|]. intros now document. split.
    + by apply push_unauthorized.
    + by apply pull_unauthorized.
Qed.

Lemma jsonify_kwargs_insert key (v : json) (m : gmap string json) :
  jsonify_kwargs (<[key := v]> m) = JObj (<[key := v]> m).
Proof.
  unfold jsonify_kwargs.
  destruct (Nat.eqb_spec (size (<[key := v]> m)) 0) as [Hsize|]; [|done].
  apply map_size_empty_iff in Hsize. by apply insert_non_empty in Hsize.
Qed.

(** A pull by an authenticated user of a document with no stored file
    answers 200 with the document alone, and nothing is raised. *)
Theorem pull_no_record document req fs user :
  kss_auth req fs = (Ok (Some user), fs) ->
  fs !! kss_path user document = None ->
  pull document req fs = (Ok (JObj {[ "document" := JStr document ]}, 200), fs).
Proof.
  intros Hauth Hnone.
  destruct (kss_auth_Some _ _ _ _ Hauth) as (_ & Htruthy & _).
  unfold pull, mbind. rewrite Hauth, Htruthy. cbn [negb default from_option id].
  unfold path_exists. rewrite Hnone.
  rewrite bool_decide_eq_false_2 by (by intros [? ?]).
  reflexivity.
Qed.

Lemma setdefault_obj (m : gmap string json) key :
  setdefault (JObj m) key JNull = Ok (JObj (with_default key m)).
Proof. unfold setdefault, with_default. by destruct (m !! key). Qed.

Lemma getitem_insert (m : gmap string json) key v :
  getitem (JObj (<[key := v]> m)) key = Ok v.
Proof. unfold getitem. by rewrite lookup_insert_eq. Qed.

(** What [push] does once the user is authenticated and the body is a JSON
    object. *)
Lemma push_authenticated now req fs user m :
  kss_auth req fs = (Ok (Some user), fs) ->
  req_body req = JsonBody (JObj m) ->
  push now req fs =
  (let document := from_option id JNull (m !! "document") in
   if truthy document
   then (Ok (JObj {[ "document" := document; "timestamp" := JInt now ]}, 200),
         <[kss_path user (format document) := JObj (stored_record m now)]> fs)
   else (Ok missing_document, fs)).
Proof.
  intros Hauth Hbody.
  destruct (kss_auth_Some _ _ _ _ Hauth) as (_ & Htruthy & _).
  unfold push, mbind. rewrite Hauth, Htruthy. cbn [negb default from_option id].
  unfold is_json, get_json. rewrite Hbody. cbn [negb ret lift dict_get].
  destruct (truthy (from_option id JNull (m !! "document"))); [|done].
  assert (Htail : forall m1 : gmap string json,
    (let (r, fs') := (Ok (JObj m1), fs) in
     match r with
     | Ok a =>
       match setdefault a "progress" JNull with
       | Ok a0 =>
         match setdefault a0 "device" JNull with
         | Ok a1 =>
           match setdefault a1 "device_id" JNull with
           | Ok a2 =>
             match setitem a2 "timestamp" (JInt now) with
             | Ok a3 =>
               let (r0, fs'0) :=
                 write_text
                   (kss_path user (format (default JNull (m !! "document"))))
                   a3 fs' in
               match r0 with
               | Ok _ =>
                 match getitem a3 "timestamp" with
                 | Ok a5 =>
                   ret (kss_response 200
                          {[ "document" := default JNull (m !! "document");
                             "timestamp" := a5 ]}) fs'0
                 | Raise e => (Raise e, fs'0)
                 end
               | Raise e => (Raise e, fs'0)
               end
             | Raise e => (Raise e, fs')
             end
           | Raise e => (Raise e, fs')
           end
         | Raise e => (Raise e, fs')
         end
       | Raise e => (Raise e, fs')
       end
     | Raise e => (Raise e, fs')
     end) =
    (Ok (JObj {[ "document" := default JNull (m !! "document");
                 "timestamp" := JInt now ]}, 200),
     <[kss_path user (format (default JNull (m !! "document"))) :=
         JObj (<["timestamp" := JInt now]>
                 (with_default "device_id"
                    (with_default "device" (with_default "progress" m1))))]> fs)).
  { intros m1. rewrite setdefault_obj. cbv iota beta.
    rewrite setdefault_obj. cbv iota beta.
    rewrite setdefault_obj. cbv iota beta.
    cbn [setitem]. unfold write_text. rewrite getitem_insert.
    unfold ret, kss_response. by rewrite jsonify_kwargs_insert. }
  unfold stored_record, coerce_percentage.
  destruct (m !! "percentage") as [p|] eqn:Hp; cbn [from_option id].
  - destruct (truthy p).
    + destruct (float p); unfold lift; cbn [setitem]; apply Htail.
    + apply Htail.
  - change (truthy JNull) with false. cbv iota. apply Htail.
Qed.

Lemma with_default_lookup key (m : gmap string json) key' :
  with_default key m !! key' =
  if decide (key = key') then Some (from_option id JNull (m !! key))
  else m !! key'.
Proof.
  unfold with_default. case_decide as Hk.
  - subst key'. destruct (m !! key) eqn:E; [done|]. by rewrite lookup_insert_eq.
  - destruct (m !! key) eqn:E; [done|]. by rewrite lookup_insert_ne.
Qed.

(** The members of the persisted record. *)
Lemma stored_record_fields (m : gmap string json) now :
  stored_record m now !! "timestamp" = Some (JInt now) /\
  (forall key, key = "progress" \/ key = "device" \/ key = "device_id" ->
     stored_record m now !! key = Some (from_option id JNull (m !! key))) /\
  stored_record m now !! "percentage" =
    coerce_percentage <$> m !! "percentage" /\
  (forall key,
     key <> "percentage" -> key <> "progress" -> key <> "device" ->
     key <> "device_id" -> key <> "timestamp" ->
     stored_record m now !! key = m !! key).
Proof.
  unfold stored_record.
  set (m1 := match m !! "percentage" with
             | Some p => if truthy p
                         then <["percentage" := coerce_percentage p]> m else m
             | None => m
             end).
  assert (Hm1 : forall key, key <> "percentage" -> m1 !! key = m !! key).
  { intros key Hkey. unfold m1. destruct (m !! "percentage") as [p|]; [|done].
    destruct (truthy p); [|done]. by rewrite lookup_insert_ne. }
  assert (Hp : m1 !! "percentage" = coerce_percentage <$> m !! "percentage").
  { unfold m1. destruct (m !! "percentage") as [p|] eqn:Hp; [|by rewrite Hp].
    unfold coerce_percentage. destruct (truthy p) eqn:Ht.
    - rewrite lookup_insert_eq. simpl. by rewrite Ht.
    - rewrite Hp. simpl. by rewrite Ht. }
  split; [apply lookup_insert_eq|]. split; [|split].
  - intros key [-> | [-> | ->]]; rewrite lookup_insert_ne by done;
      rewrite !with_default_lookup; repeat case_decide; try done;
      by rewrite ?with_default_lookup, ?Hm1; repeat case_decide.
  - rewrite lookup_insert_ne by done. rewrite !with_default_lookup.
    repeat case_decide; done.
  - intros key H1 H2 H3 H4 H5. rewrite lookup_insert_ne by done.
    rewrite !with_default_lookup. repeat case_decide; try done. by apply Hm1.
Qed.

(** C2.  An authenticated push whose body names a document answers 200 with
    the document and the server time, and puts at the key of (user,
    document) a record that is determined by the request and the server
    clock alone, so that whatever was stored there before is gone: the
    record has every member of the body as the client sent it (the
    percentage converted by [float]), except that its timestamp is the
    server time, whatever timestamp the client sent. *)
Theorem push_replaces_record now req m document :
  req_body req = JsonBody (JObj m) ->
  m !! "document" = Some document ->
  truthy document = true ->
  exists record : gmap string json,
    record !! "timestamp" = Some (JInt now) /\
    (forall key v, key <> "timestamp" -> key <> "percentage" ->
       m !! key = Some v -> record !! key = Some v) /\
    record !! "percentage" = coerce_percentage <$> m !! "percentage" /\
    forall fs user,
      kss_auth req fs = (Ok (Some user), fs) ->
      push now req fs =
        (Ok (JObj {[ "document" := document; "timestamp" := JInt now ]}, 200),
         <[kss_path user (format document) := JObj record]> fs) /\
      snd (push now req fs) !! kss_path user (format document) =
        Some (JObj record).
Proof.
  intros Hbody Hdoc Htruthy. exists (stored_record m now).
  destruct (stored_record_fields m now) as (Hts & Hdefaults & Hpercentage & Hrest).
  split; [done|]. split; [|split; [done|]].
  - intros key v Hk1 Hk2 Hv.
    destruct (decide (key = "progress" \/ key = "device" \/ key = "device_id"))
      as [Hkey|Hkey].
    + rewrite (Hdefaults key Hkey), Hv. done.
    + rewrite Hrest, Hv; [done|try done..]; intros ->; apply Hkey; auto.
  - intros fs user Hauth.
    rewrite (push_authenticated now req fs user m Hauth Hbody).
    rewrite Hdoc. cbn [from_option id]. rewrite Htruthy.
    split; [done|]. apply lookup_insert_eq.
Qed.

(** C10.  An authenticated push whose body has no document, or an empty or
    otherwise falsy one, is answered with 403, code 2004, exactly as when
    the member is absent, and writes nothing. *)
Theorem push_falsy_document now req fs user m :
  kss_auth req fs = (Ok (Some user), fs) ->
  req_body req = JsonBody (JObj m) ->
  truthy (from_option id JNull (m !! "document")) = false ->
  push now req fs =
    (Ok (JObj {[ "message" := JStr "Field 'document' not provided.";
                 "code" := JInt 2004 ]}, 403), fs) /\
  push now req fs =
    push now (Request (x_auth_user req) (x_auth_key req)
                      (JsonBody (JObj (delete "document" m)))) fs.
Proof.
  intros Hauth Hbody Hfalsy.
  rewrite (push_authenticated now req fs user m Hauth Hbody).
  cbv zeta. rewrite Hfalsy. split; [done|].
  rewrite (push_authenticated now _ fs user (delete "document" m)); [|done..].
  cbv zeta. by rewrite lookup_delete_eq.
Qed.

(** C4 (as the code has it).  The record that an accepted push persists
    holds the server timestamp; [progress], [device] and [device_id] always,
    with the value [null] when the client did not supply them; the
    percentage only when the client supplied one, converted to a float when
    it is truthy, [null] when that conversion fails, and as supplied when it
    is falsy; and every other member of the body as supplied. *)
Theorem push_persisted_fields now req fs user m document :
  kss_auth req fs = (Ok (Some user), fs) ->
  req_body req = JsonBody (JObj m) ->
  m !! "document" = Some document ->
  truthy document = true ->
  exists record : gmap string json,
    snd (push now req fs) !! kss_path user (format document) =
      Some (JObj record) /\
    record !! "timestamp" = Some (JInt now) /\
    (forall key, key = "progress" \/ key = "device" \/ key = "device_id" ->
       record !! key = Some (from_option id JNull (m !! key))) /\
    record !! "percentage" = coerce_percentage <$> m !! "percentage" /\
    (forall key,
       key <> "percentage" -> key <> "progress" -> key <> "device" ->
       key <> "device_id" -> key <> "timestamp" ->
       record !! key = m !! key).
Proof.
  intros Hauth Hbody Hdoc Htruthy. exists (stored_record m now).
  split; [|apply stored_record_fields].
  rewrite (push_authenticated now req fs user m Hauth Hbody).
  rewrite Hdoc. cbn [from_option id]. rewrite Htruthy. apply lookup_insert_eq.
Qed.

Lemma field_of_kss_response code (res : gmap string json) key :
  field_of (kss_response code res) key = res !! key.
Proof.
  unfold field_of, kss_response, jsonify_kwargs. simpl.
  destruct (Nat.eqb_spec (size res) 0) as [Hsize|]; [|done].
  apply map_size_empty_iff in Hsize. by subst.
Qed.

Lemma present_truthy_default (m : gmap string json) key :
  present_truthy m key =
  if truthy (from_option id JNull (m !! key))
  then Some (from_option id JNull (m !! key)) else None.
Proof. unfold present_truthy. by destruct (m !! key). Qed.

Lemma lookup_opt_insert key o (res : gmap string json) key' :
  opt_insert key o res !! key' =
  if decide (key = key')
  then match o with Some v => Some v | None => res !! key' end
  else res !! key'.
Proof.
  unfold opt_insert. destruct o; case_decide; try done.
  - subst. apply lookup_insert_eq.
  - by apply lookup_insert_ne.
Qed.

(** What [pull] does once the user is authenticated and a record is
    stored. *)
Lemma pull_authenticated document req fs user m :
  kss_auth req fs = (Ok (Some user), fs) ->
  fs !! kss_path user document = Some (JObj m) ->
  pull document req fs = (Ok (kss_response 200 (pull_result m)), fs).
Proof.
  intros Hauth Hfile.
  destruct (kss_auth_Some _ _ _ _ Hauth) as (_ & Htruthy & _).
  unfold pull, mbind. rewrite Hauth, Htruthy. cbn [negb default from_option id].
  unfold path_exists, load. rewrite Hfile.
  rewrite bool_decide_eq_true_2 by eauto.
  cbn [negb]. rewrite Hfile. cbn [lift dict_get ret].
  unfold pull_result. cbv zeta.
  generalize (from_option id JNull (m !! "percentage")) as a0.
  generalize (from_option id JNull (m !! "progress")) as a1.
  generalize (from_option id JNull (m !! "device")) as a2.
  generalize (from_option id JNull (m !! "device_id")) as a3.
  generalize (from_option id JNull (m !! "timestamp")) as a4.
  intros a4 a3 a2 a1 a0. do 3 f_equal.
  destruct (truthy a0), (float a0), (truthy a1), (truthy a2), (truthy a3),
    (truthy a4), (int a4); reflexivity.
Qed.

Lemma pull_result_lookup (m : gmap string json) key :
  pull_result m !! key =
  if decide (key = "percentage") then
    match present_truthy m "percentage" with
    | Some p => JFloat <$> float p
    | None => None
    end
  else if decide (key = "timestamp") then
    match present_truthy m "timestamp" with
    | Some t => JInt <$> int t
    | None => None
    end
  else if decide (key = "progress" \/ key = "device" \/ key = "device_id")
  then present_truthy m key
  else None.
Proof.
  unfold pull_result. cbv zeta. rewrite !lookup_opt_insert, lookup_empty.
  rewrite !present_truthy_default.
  repeat case_decide; subst; try done;
    try (by destruct (truthy _); [destruct (float _) || destruct (int _)|]);
    try (by destruct (truthy _)).
  all: exfalso; intuition congruence.
Qed.

(** C3 (as the code has it).  A pull by an authenticated user of a document
    with a stored record answers 200, and each of [percentage], [progress],
    [device], [device_id], [timestamp] is in the response exactly when the
    stored record has it with a value that is not falsy and, for the
    percentage and the timestamp, that [float] and [int] convert. *)
Theorem pull_fields document req fs user m :
  kss_auth req fs = (Ok (Some user), fs) ->
  fs !! kss_path user document = Some (JObj m) ->
  exists r : response,
    pull document req fs = (Ok r, fs) /\
    snd r = 200 /\
    field_of r "percentage" =
      match present_truthy m "percentage" with
      | Some p => JFloat <$> float p
      | None => None
      end /\
    (forall key, key = "progress" \/ key = "device" \/ key = "device_id" ->
       field_of r key = present_truthy m key) /\
    field_of r "timestamp" =
      match present_truthy m "timestamp" with
      | Some t => JInt <$> int t
      | None => None
      end.
Proof.
  intros Hauth Hfile. exists (kss_response 200 (pull_result m)).
  split; [by apply (pull_authenticated document req fs user)|].
  split; [reflexivity|].
  split; [|split].
  - by rewrite field_of_kss_response, pull_result_lookup.
  - intros key Hkey. rewrite field_of_kss_response, pull_result_lookup.
    destruct Hkey as [-> | [-> | ->]]; repeat case_decide; try done;
      exfalso; naive_solver.
  - by rewrite field_of_kss_response, pull_result_lookup.
Qed.

(** What [register] does with a JSON object as body. *)
Lemma register_object req fs m :
  req_body req = JsonBody (JObj m) ->
  register false req fs =
  (let user := from_option id (JStr "") (m !! "username") in
   let password_md5 := from_option id (JStr "") (m !! "password") in
   if negb (truthy user && isinstance_str user) then (Ok invalid_request, fs)
   else if negb (truthy password_md5) || negb (isinstance_str password_md5)
   then (Ok invalid_request, fs)
   else if bool_decide (is_Some (fs !! kss_auth_file (str_value user)))
   then (Ok already_registered, fs)
   else (Ok (JObj {[ "username" := user ]}, 201),
         <[kss_auth_file (str_value user) :=
             JObj {[ "x-auth-user" := user; "x-auth-key" := password_md5 ]}]> fs)).
Proof.
  intros Hbody. unfold register, mbind, is_json, get_json. rewrite Hbody.
  cbn [negb ret lift dict_get]. cbv zeta.
  destruct (negb (truthy _ && isinstance_str _)); [done|].
  destruct (negb (truthy _) || negb (isinstance_str _)); [done|].
  unfold path_exists.
  destruct (bool_decide (is_Some (fs !! _))); [done|].
  unfold write_text, ret, kss_response.
  by rewrite <- insert_empty, jsonify_kwargs_insert.
Qed.

(** [register] never touches a file that is already there. *)
Lemma register_keeps disabled req fs p c :
  fs !! p = Some c -> snd (register disabled req fs) !! p = Some c.
Proof.
  intros Hp. unfold register, mbind.
  destruct disabled; [done|].
  destruct (negb (is_json req)); [done|].
  unfold get_json. destruct (req_body req) as [| |js]; try done.
  cbn [ret lift]. destruct (dict_get js "username" _) as [user|]; [|done].
  destruct (negb (truthy user && isinstance_str user)); [done|].
  destruct (dict_get js "password" _) as [password_md5|]; [|done].
  destruct (negb (truthy _) || negb (isinstance_str _)); [done|].
  unfold path_exists.
  destruct (fs !! kss_auth_file (str_value user)) as [c'|] eqn:Hfile.
  - rewrite bool_decide_eq_true_2 by eauto. done.
  - rewrite bool_decide_eq_false_2 by (by intros [? ?]).
    unfold write_text, ret. simpl.
    rewrite lookup_insert_ne; [done|].
    intros Heq. rewrite Heq in Hfile.
    assert (Hcontra : Some c = None) by (rewrite <- Hp; exact Hfile).
    discriminate.
Qed.

Lemma append_json_auth (d : string) :
  String.append d ".json" = "auth.json" -> d = "auth".
Proof.
  intros Heq.
  do 10 (destruct d as [|? d]; simpl in Heq; try discriminate;
         try (injection Heq as <- Heq); try done).
Qed.

(** [register] writes auth files only. *)
Lemma register_progress_files disabled req fs user document :
  document <> "auth" ->
  snd (register disabled req fs) !! kss_path user document =
  fs !! kss_path user document.
Proof.
  intros Hdoc. unfold register, mbind.
  destruct disabled; [done|].
  destruct (negb (is_json req)); [done|].
  unfold get_json. destruct (req_body req) as [| |js]; try done.
  cbn [ret lift]. destruct (dict_get js "username" _) as [u|]; [|done].
  destruct (negb (truthy u && isinstance_str u)); [done|].
  destruct (dict_get js "password" _) as [password_md5|]; [|done].
  destruct (negb (truthy _) || negb (isinstance_str _)); [done|].
  unfold path_exists.
  destruct (bool_decide (is_Some (fs !! _))); [done|].
  unfold write_text, ret. simpl.
  apply lookup_insert_ne. unfold kss_path, kss_auth_file. intros [= _ Heq].
  symmetry in Heq. by apply append_json_auth in Heq.
Qed.

(** C5 (as the code has it).  With registration enabled, a further
    registration request for a user name that is already registered is
    refused and leaves every stored file as it was: with 402, code 2002,
    whatever non-empty string it gives as password, and with 403, code 2003,
    when its password is missing, empty or not a string. *)
Theorem register_existing_user req fs m user :
  is_Some (fs !! kss_auth_file user) ->
  req_body req = JsonBody (JObj m) ->
  m !! "username" = Some (JStr user) ->
  user <> "" ->
  snd (register false req fs) = fs /\
  (forall password,
      m !! "password" = Some (JStr password) -> password <> "" ->
      register false req fs =
        (Ok (JObj {[ "message" := JStr "Username is already registered";
                     "code" := JInt 2002 ]}, 402), fs)) /\
  ((forall password, m !! "password" = Some (JStr password) -> password = "") ->
      register false req fs =
        (Ok (JObj {[ "message" := JStr "Invalid request";
                     "code" := JInt 2003 ]}, 403), fs)).
Proof.
  intros Hreg Hbody Huser Hne.
  rewrite (register_object req fs m Hbody). rewrite Huser.
  cbn [from_option id]. cbv zeta. cbn [truthy isinstance_str str_value].
  apply String.eqb_neq in Hne. rewrite Hne. cbn [negb andb].
  rewrite bool_decide_eq_true_2 by done.
  split; [|split].
  - by destruct (negb (truthy _) || negb (isinstance_str _)).
  - intros password Hpw Hpne. rewrite Hpw. cbn [from_option id truthy isinstance_str].
    apply String.eqb_neq in Hpne. by rewrite Hpne.
  - intros Hpw. destruct (m !! "password") as [[| | | |password| |]|] eqn:E;
      cbn [from_option id truthy isinstance_str negb orb]; try done;
      try (by rewrite orb_true_r).
    rewrite (Hpw password eq_refl). done.
Qed.

(** *** The credential files stay credential records *)

Lemma credentials_ok_empty : credentials_ok ∅.
Proof. intros user c Hc. by rewrite lookup_empty in Hc. Qed.

Lemma credentials_ok_register disabled req fs :
  credentials_ok fs -> credentials_ok (snd (register disabled req fs)).
Proof.
  intros Hok. unfold register, mbind.
  destruct disabled; [done|].
  destruct (negb (is_json req)); [done|].
  unfold get_json. destruct (req_body req) as [| |js]; try done.
  cbn [ret lift]. destruct (dict_get js "username" _) as [user|]; [|done].
  destruct (truthy user && isinstance_str user) eqn:Hu; [|done].
  cbn [negb].
  destruct (dict_get js "password" _) as [password_md5|]; [|done].
  destruct (truthy password_md5) eqn:Hp1; [|done].
  destruct (isinstance_str password_md5) eqn:Hp2; [|done].
  cbn [negb orb]. unfold path_exists.
  destruct (bool_decide (is_Some (fs !! _))); [done|].
  unfold write_text, ret. simpl.
  apply andb_true_iff in Hu as [Hu1 Hu2].
  destruct user as [| | | |u| |]; try done.
  destruct password_md5 as [| | | |k| |]; try done.
  simpl in *. apply negb_true_iff, String.eqb_neq in Hu1, Hp1.
  intros user c Hc. destruct (decide (u = user)) as [->|Hne].
  - rewrite lookup_insert_eq in Hc. injection Hc as <-.
    split; [done|]. by exists k.
  - rewrite lookup_insert_ne in Hc by (unfold kss_auth_file, kss_dir; congruence).
    by apply Hok.
Qed.

(** A push of any document other than one named [auth] leaves the auth
    files alone. *)
Lemma credentials_ok_push now req fs :
  credentials_ok fs ->
  (forall m document, req_body req = JsonBody (JObj m) ->
      m !! "document" = Some document -> format document <> "auth") ->
  credentials_ok (snd (push now req fs)).
Proof.
  intros Hok Hdoc.
  destruct (kss_auth_total req fs Hok) as [Hnone|[user Hauth]].
  { by rewrite push_unauthorized. }
  destruct (req_body req) as [| |js] eqn:Hbody.
  1,2: destruct (kss_auth_Some _ _ _ _ Hauth) as (_ & Htruthy & _);
       unfold push, mbind, is_json, get_json;
       rewrite Hauth, Htruthy, Hbody; done.
  destruct js as [| | | | | |m].
  1-6: destruct (kss_auth_Some _ _ _ _ Hauth) as (_ & Htruthy & _);
       unfold push, mbind, is_json, get_json;
       rewrite Hauth, Htruthy, Hbody; done.
  rewrite (push_authenticated now req fs user m Hauth Hbody). cbv zeta.
  destruct (m !! "document") as [document|] eqn:Hd; [|done].
  cbn [from_option id]. destruct (truthy document); [|done].
  intros user' c Hc. simpl in Hc.
  rewrite lookup_insert_ne in Hc; [by apply Hok|].
  unfold kss_path, kss_auth_file. intros [= _ Heq].
  apply append_json_auth in Heq. by apply (Hdoc m document).
Qed.

Lemma mbind_reads {A B} (c : M A) (k : A -> M B) fs :
  snd (c fs) = fs -> (forall a, snd (k a fs) = fs) -> snd (mbind c k fs) = fs.
Proof.
  intros Hc Hk. unfold mbind. destruct (c fs) as [[a|e] fs']; simpl in Hc;
    subst fs'; [apply Hk | done].
Qed.

(** [pull] only reads the state directory. *)
Lemma pull_reads document req fs : snd (pull document req fs) = fs.
Proof.
  unfold pull.
  apply mbind_reads; [apply kss_auth_reads|]. intros user.
  destruct (negb (str_truthy user)); [done|]. cbv zeta.
  apply mbind_reads; [done|]. intros present.
  destruct (negb present); [done|].
  apply mbind_reads; [unfold load; by destruct (fs !! _)|]. intros js.
  do 5 (apply mbind_reads; [done|]; intros ?).
  done.
Qed.

Lemma login_reads req fs : snd (login req fs) = fs.
Proof.
  unfold login. apply mbind_reads; [apply kss_auth_reads|]. intros user.
  by destruct (str_truthy user).
Qed.

(** *** Sequences of calls *)

Lemma length_append (a c : string) :
  String.length (String.append a c) = (String.length a + String.length c)%nat.
Proof. induction a as [|x a IH]; simpl; [done|]. by rewrite IH. Qed.

Lemma append_inj_suffix (a b c : string) :
  String.append a c = String.append b c -> a = b.
Proof.
  revert b. induction a as [|x a IH]; intros [|y b] Heq; simpl in Heq.
  - done.
  - apply (f_equal String.length) in Heq.
    rewrite ?length_append in Heq. simpl in Heq.
    rewrite ?length_append in Heq. lia.
  - apply (f_equal String.length) in Heq.
    rewrite ?length_append in Heq. simpl in Heq.
    rewrite ?length_append in Heq. lia.
  - injection Heq as -> Heq. by rewrite (IH b Heq).
Qed.

Lemma kss_path_inj user d user' d' :
  kss_path user d = kss_path user' d' -> user = user' /\ d = d'.
Proof.
  unfold kss_path, kss_dir. intros [= -> Heq].
  by apply append_inj_suffix in Heq.
Qed.

(** [push] writes one file at most: the one of the authenticated user and
    the document of the body. *)
Lemma push_other_paths now req fs p :
  (forall user, x_auth_user req = Some user ->
     ~ exists d, names_document req d /\ p = kss_path user d) ->
  snd (push now req fs) !! p = fs !! p.
Proof.
  intros Hp.
  destruct (kss_auth req fs) as [[[user|]|e] fs'] eqn:Hauth;
    pose proof (kss_auth_reads req fs) as Hfs; rewrite Hauth in Hfs;
    simpl in Hfs; subst fs'.
  2: by rewrite push_unauthorized.
  2: unfold push, mbind; by rewrite Hauth.
  destruct (kss_auth_Some _ _ _ _ Hauth) as (Huser & Htruthy & _).
  destruct (req_body req) as [| |js] eqn:Hbody.
  1,2: unfold push, mbind, is_json, get_json;
       rewrite Hauth, Htruthy, Hbody; done.
  destruct js as [| | | | | |m].
  1-6: unfold push, mbind, is_json, get_json;
       rewrite Hauth, Htruthy, Hbody; done.
  rewrite (push_authenticated now req fs user m Hauth Hbody). cbv zeta.
  destruct (m !! "document") as [document|] eqn:Hd; [|done].
  cbn [from_option id]. destruct (truthy document); [|done].
  simpl. apply lookup_insert_ne. intros Heq.
  apply (Hp user Huser). exists (format document). split; [|done].
  by exists m, document.
Qed.

(** X23.  Without a push under the name [user] for the document [d], no
    record is stored for them: along any sequence of calls that name their
    files by single components and has no such push, the key of ([user],
    [d]) is as empty as before. *)
Lemma run_no_record calls user d : forall fs,
  Forall Paths.plain calls ->
  Paths.component user = true -> Paths.slash_free d = true ->
  d <> "auth" ->
  Forall (fun c => ~ pushes user d c) calls ->
  fs !! kss_path user d = None ->
  run calls fs !! kss_path user d = None.
Proof.
  induction calls as [|c calls IH]; intros fs Hplain Hu Hsf Hd Hcalls Hnone;
    [done|].
  inversion Hcalls as [|? ? Hc Hrest]; subst.
  inversion Hplain as [|? ? _ Hplains]; subst. simpl.
  apply IH; [done..|].
  destruct c as [disabled req|req|now req|document req]; simpl.
  - by rewrite register_progress_files.
  - by rewrite login_reads.
  - rewrite push_other_paths; [done|].
    intros user' Huser (d' & Hnames & Heq).
    apply kss_path_inj in Heq as [<- <-]. by apply Hc.
  - by rewrite pull_reads.
Qed.

End Sync.

(** * The handlers on concrete requests *)

Section Examples.
Import Py Kss SyncSpec SampleRuntime.

Example registered_state :
  registered !! kss_auth_file "alice" = Some (credential "alice" alice_key).
Proof. reflexivity. Qed.

Example started_record :
  started !! kss_path "alice" "d1" = Some (JObj start_record).
Proof. reflexivity. Qed.

Lemma registered_ok : credentials_ok registered.
Proof. apply credentials_ok_register, credentials_ok_empty. Qed.

Lemma started_ok : credentials_ok started.
Proof.
  apply credentials_ok_push; [apply registered_ok|].
  intros m document [= <-]. unfold start_body.
  rewrite lookup_insert_eq. by intros [= <-].
Qed.

Lemma alice_authenticated fs b :
  fs !! kss_auth_file "alice" = Some (credential "alice" alice_key) ->
  kss_auth (as_alice b) fs = (Ok (Some "alice"), fs).
Proof.
  intros Hfile. rewrite kss_auth_unfold. simpl. rewrite Hfile.
  by rewrite check_credential.
Qed.

Lemma alice_in_registered b :
  kss_auth (as_alice b) registered = (Ok (Some "alice"), registered).
Proof. by apply alice_authenticated. Qed.

Lemma alice_in_started b :
  kss_auth (as_alice b) started = (Ok (Some "alice"), started).
Proof. by apply alice_authenticated. Qed.

(** The digest of the README example: the file name of the sample book. *)
Example md5_of_file_name :
  Md5name.md5 (Io.BytesIO (bytes_of "minimal-v3plus2.epub")) =
  "35322b7036d0c3298eedde8c30429693".
Proof. vm_compute. reflexivity. Qed.

Example partial_md5_abc :
  PartialMd5.partial_md5 (Io.BytesIO (bytes_of "abc")) 1024 1024 =
  Ok "900150983cd24fb0d6963f7d28e17f72".
Proof. vm_compute. reflexivity. Qed.

(** 5000 bytes: the samples at 0, 1024 and 4096 are hashed, the read at
    16384 is empty. *)
Example partial_md5_5000 :
  PartialMd5.partial_md5 (Io.BytesIO (repeat x61 5000)) 1024 1024 =
  Ok "1d8d46cc63af8a19793c1c7ebd580a3e".
Proof. vm_compute. reflexivity. Qed.

(** Push, then pull from another device: the record comes back with the
    server's timestamp in place of the client's. *)
Example push_then_pull :
  fst (pull "22b3308b1618273ad77a98fe29ca4600" (as_alice NotJson)
         (snd (push 1751935136 (as_alice (JsonBody (JObj progress_body)))
                    registered))) =
  Ok (JObj {[ "percentage" := JFloat f0_4045;
              "progress" :=
                JStr "/body/DocFragment[26]/body/section/p[5]/text().0";
              "device" := JStr "KindlePaperWhite3";
              "device_id" := JStr "6B344CE498AE402096F5AEB4154C1DBB";
              "timestamp" := JInt 1751935136 ]}, 200).
Proof. vm_compute. reflexivity. Qed.

Lemma authentication_exact_witness :
  (forall user,
      kss_auth (as_alice NotJson) registered = (Ok (Some user), registered) <->
      authenticates (as_alice NotJson) registered user) /\
  ((~ exists user, authenticates (as_alice NotJson) registered user) ->
   kss_auth (as_alice NotJson) registered = (Ok None, registered) /\
   forall now document,
     push now (as_alice NotJson) registered =
       (Ok (JObj {[ "message" := JStr "Unauthorized"; "code" := JInt 2001 ]},
            401), registered) /\
     pull document (as_alice NotJson) registered =
       (Ok (JObj {[ "message" := JStr "Unauthorized"; "code" := JInt 2001 ]},
            401), registered)).
Proof. apply authentication_exact. apply registered_ok. Defined.

Lemma pull_no_record_witness :
  pull "d1" (as_alice NotJson) registered =
  (Ok (JObj {[ "document" := JStr "d1" ]}, 200), registered).
Proof.
  apply (pull_no_record "d1" (as_alice NotJson) registered "alice").
  - apply alice_in_registered.
  - reflexivity.
Defined.

Lemma push_replaces_record_witness :
  exists record : gmap string json,
    record !! "timestamp" = Some (JInt 1751935136) /\
    (forall key v, key <> "timestamp" -> key <> "percentage" ->
       progress_body !! key = Some v -> record !! key = Some v) /\
    record !! "percentage" = coerce_percentage <$> progress_body !! "percentage" /\
    forall fs user,
      kss_auth (as_alice (JsonBody (JObj progress_body))) fs =
        (Ok (Some user), fs) ->
      push 1751935136 (as_alice (JsonBody (JObj progress_body))) fs =
        (Ok (JObj {[ "document" := JStr "22b3308b1618273ad77a98fe29ca4600";
                     "timestamp" := JInt 1751935136 ]}, 200),
         <[kss_path user (format (JStr "22b3308b1618273ad77a98fe29ca4600")) :=
             JObj record]> fs) /\
      snd (push 1751935136 (as_alice (JsonBody (JObj progress_body))) fs)
        !! kss_path user (format (JStr "22b3308b1618273ad77a98fe29ca4600")) =
        Some (JObj record).
Proof.
  apply (push_replaces_record 1751935136
           (as_alice (JsonBody (JObj progress_body))) progress_body);
    reflexivity.
Defined.

Lemma push_falsy_document_witness :
  push 5 (as_alice (JsonBody (JObj {[ "document" := JStr "" ]}))) registered =
    (Ok (JObj {[ "message" := JStr "Field 'document' not provided.";
                 "code" := JInt 2004 ]}, 403), registered) /\
  push 5 (as_alice (JsonBody (JObj {[ "document" := JStr "" ]}))) registered =
    push 5 (as_alice (JsonBody (JObj (delete "document"
                                        {[ "document" := JStr "" ]}))))
         registered.
Proof.
  apply (push_falsy_document 5
           (as_alice (JsonBody (JObj {[ "document" := JStr "" ]})))
           registered "alice" {[ "document" := JStr "" ]}).
  - apply alice_in_registered.
  - reflexivity.
  - reflexivity.
Defined.

Lemma push_persisted_fields_witness :
  exists record : gmap string json,
    snd (push 1751935136 (as_alice (JsonBody (JObj start_body))) registered)
      !! kss_path "alice" (format (JStr "d1")) = Some (JObj record) /\
    record !! "timestamp" = Some (JInt 1751935136) /\
    (forall key, key = "progress" \/ key = "device" \/ key = "device_id" ->
       record !! key = Some (from_option id JNull (start_body !! key))) /\
    record !! "percentage" = coerce_percentage <$> start_body !! "percentage" /\
    (forall key,
       key <> "percentage" -> key <> "progress" -> key <> "device" ->
       key <> "device_id" -> key <> "timestamp" ->
       record !! key = start_body !! key).
Proof.
  apply (push_persisted_fields 1751935136 _ registered "alice" start_body).
  - apply alice_in_registered.
  - reflexivity.
  - reflexivity.
  - reflexivity.
Defined.

(** C4 as stated fails: a push that supplies no [progress] stores
    [progress] with the value [null]. *)
Lemma push_absent_fields_counterexample :
  ~ (forall now req fs user m document record,
       kss_auth req fs = (Ok (Some user), fs) ->
       req_body req = JsonBody (JObj m) ->
       m !! "document" = Some document ->
       truthy document = true ->
       snd (push now req fs) !! kss_path user (format document) =
         Some (JObj record) ->
       (forall key, key = "progress" \/ key = "device" \/ key = "device_id" ->
          m !! key = None -> record !! key = None) /\
       (forall p, m !! "percentage" = Some p -> float p = None ->
          record !! "percentage" = None)).
Proof.
  intros Hclaim.
  destruct (Hclaim 1751935136 (as_alice (JsonBody (JObj start_body)))
              registered "alice" start_body (JStr "d1") start_record
              (alice_in_registered _) eq_refl eq_refl eq_refl eq_refl)
    as [Habsent _].
  specialize (Habsent "progress" (or_introl eq_refl) eq_refl).
  discriminate Habsent.
Qed.

Lemma pull_fields_witness :
  exists r : response,
    pull "d1" (as_alice NotJson) started = (Ok r, started) /\
    snd r = 200 /\
    field_of r "percentage" =
      match present_truthy start_record "percentage" with
      | Some p => JFloat <$> float p
      | None => None
      end /\
    (forall key, key = "progress" \/ key = "device" \/ key = "device_id" ->
       field_of r key = present_truthy start_record key) /\
    field_of r "timestamp" =
      match present_truthy start_record "timestamp" with
      | Some t => JInt <$> int t
      | None => None
      end.
Proof.
  apply (pull_fields "d1" (as_alice NotJson) started "alice" start_record).
  - apply alice_in_started.
  - reflexivity.
Defined.

(** C3 as stated fails: the stored record of a reader at the start of the
    book has the percentage 0, which [float] converts, and the response has
    neither the percentage nor the document. *)
Lemma pull_fields_counterexample :
  ~ (forall document req fs user m,
       kss_auth req fs = (Ok (Some user), fs) ->
       fs !! kss_path user document = Some (JObj m) ->
       exists r : response,
         pull document req fs = (Ok r, fs) /\
         field_of r "document" = Some (JStr document) /\
         (is_Some (field_of r "percentage") <->
            exists p, m !! "percentage" = Some p /\ is_Some (float p)) /\
         (forall key, key = "progress" \/ key = "device" \/ key = "device_id" ->
            (is_Some (field_of r key) <-> is_Some (m !! key))) /\
         (is_Some (field_of r "timestamp") <->
            exists t, m !! "timestamp" = Some t /\ is_Some (int t))).
Proof.
  intros Hclaim.
  destruct (Hclaim "d1" (as_alice NotJson) started "alice" start_record
              (alice_in_started _) eq_refl)
    as (r & Hpull & _ & Hpercentage & _).
  assert (Hr : field_of r "percentage" = None).
  { rewrite (pull_authenticated "d1" (as_alice NotJson) started "alice"
               start_record (alice_in_started _) eq_refl) in Hpull.
    injection Hpull as <-. by rewrite field_of_kss_response. }
  rewrite Hr in Hpercentage.
  destruct (proj2 Hpercentage) as [v Hv]; [|discriminate Hv].
  exists (JInt 0). split; [reflexivity|]. by eexists.
Qed.

Lemma register_existing_user_witness :
  snd (register false registration registered) = registered /\
  (forall password,
      ({[ "username" := JStr "alice"; "password" := JStr alice_key ]}
         : gmap string json) !! "password" = Some (JStr password) ->
      password <> "" ->
      register false registration registered =
        (Ok (JObj {[ "message" := JStr "Username is already registered";
                     "code" := JInt 2002 ]}, 402), registered)) /\
  ((forall password,
      ({[ "username" := JStr "alice"; "password" := JStr alice_key ]}
         : gmap string json) !! "password" = Some (JStr password) ->
      password = "") ->
      register false registration registered =
        (Ok (JObj {[ "message" := JStr "Invalid request";
                     "code" := JInt 2003 ]}, 403), registered)).
Proof.
  apply (register_existing_user registration registered _ "alice").
  - vm_compute. eauto.
  - reflexivity.
  - reflexivity.
  - discriminate.
Defined.

(** C5 as stated fails: a second registration for the same name whose body
    has no password is answered with 403, code 2003. *)
Lemma register_payload_counterexample :
  ~ (forall req fs m user,
       is_Some (fs !! kss_auth_file user) ->
       req_body req = JsonBody (JObj m) ->
       m !! "username" = Some (JStr user) ->
       register false req fs =
         (Ok (JObj {[ "message" := JStr "Username is already registered";
                      "code" := JInt 2002 ]}, 402), fs)).
Proof.
  intros Hclaim.
  specialize (Hclaim
    (Request None None (JsonBody (JObj {[ "username" := JStr "alice" ]})))
    registered {[ "username" := JStr "alice" ]} "alice"
    ltac:(vm_compute; eauto) eq_refl eq_refl).
  rewrite (register_object
             (Request None None
                (JsonBody (JObj {[ "username" := JStr "alice" ]})))
             registered {[ "username" := JStr "alice" ]} eq_refl)
    in Hclaim.
  discriminate Hclaim.
Qed.

End Examples.

(** * More properties of the fingerprint engine *)

Section FingerprintCoverage.
Import Io PartialMd5 Md5name FingerprintSpec Cli.

(** [file.read()] returns everything from the position to the end. *)
Lemma read_to_end file :
  0 <= pos file ->
  fst (read file (-1)) = skipn (Z.to_nat (pos file)) (content file).
Proof.
  intros Hpos. unfold read.
  destruct (Z.leb_spec (Z.of_nat (length (content file)) - pos file) 0) as [Hn|Hn];
    simpl.
  - by rewrite drop_ge by lia.
  - apply take_ge. rewrite length_drop. lia.
Qed.

(** X1.  [md5] of md5name.py returns the MD5 digest of everything from the
    current position to the end of the stream: reading in chunks of 4096
    bytes gives what hashing the bytes in one piece gives. *)
Theorem md5_whole_stream file :
  0 <= pos file ->
  md5 file =
  Hashlib.hexdigest
    (Hashlib.update Hashlib.md5 (skipn (Z.to_nat (pos file)) (content file))).
Proof.
  intros Hpos. unfold md5. by rewrite md5_loop_spec.
Qed.

Lemma md5_whole_stream_witness :
  md5 (File (bytes_of "xxminimal-v3plus2.epub") 2) =
  Hashlib.hexdigest
    (Hashlib.update Hashlib.md5
       (skipn (Z.to_nat 2) (bytes_of "xxminimal-v3plus2.epub"))).
Proof. apply (md5_whole_stream (File (bytes_of "xxminimal-v3plus2.epub") 2)). simpl. lia. Defined.

(** X2.  The md5name command prints the same digest whether its input can
    seek or not: buffering a stream that cannot seek into a [BytesIO] keeps
    the bytes that [md5] hashes. *)
Theorem md5name_buffering file seekable :
  0 <= pos file ->
  md5name file seekable =
  Hashlib.hex (Hashlib.digest (skipn (Z.to_nat (pos file)) (content file))).
Proof.
  intros Hpos. unfold md5name. destruct seekable; simpl.
  - rewrite md5_loop_spec_digest by done. reflexivity.
  - rewrite read_to_end by done.
    rewrite md5_loop_spec_digest by (simpl; lia). reflexivity.
Qed.

(** X3.  The md5digest command, given a stream that cannot seek, hashes the
    rest of that stream as a file of its own; on a stream read from its
    start it prints the digest that it prints for a seekable stream with the
    same content. *)
Theorem md5digest_buffering file :
  0 <= pos file ->
  md5digest file false =
    partial_md5 (BytesIO (skipn (Z.to_nat (pos file)) (content file)))
                default_step default_size /\
  (pos file = 0 -> md5digest file false = md5digest file true).
Proof.
  intros Hpos. unfold md5digest. cbn [negb].
  rewrite read_to_end by done. split; [done|].
  intros H0. destruct file as [s p]. simpl in *. subst p. reflexivity.
Qed.

Lemma md5digest_buffering_witness :
  md5digest (BytesIO (bytes_of "abc")) false =
    partial_md5 (BytesIO (skipn (Z.to_nat 0) (bytes_of "abc")))
                default_step default_size /\
  (0 = 0 -> md5digest (BytesIO (bytes_of "abc")) false =
            md5digest (BytesIO (bytes_of "abc")) true).
Proof. apply (md5digest_buffering (BytesIO (bytes_of "abc"))). simpl. lia. Defined.

(** X4.  [partial_md5] does not rewind the stream it is given: the first
    sample is read from the current position, and only the ten later ones
    from absolute offsets. *)
Theorem partial_md5_first_sample_from_position file step size :
  0 <= step -> 0 <= size -> 0 <= pos file ->
  partial_md5 file step size =
  Ok (Hashlib.hex (Hashlib.digest
        (window (content file) (pos file) size ++
         concat (sparse_samples (content file) step size (range 0 10))))).
Proof.
  intros Hstep Hsize Hpos. by rewrite partial_md5_from.
Qed.

Lemma partial_md5_first_sample_from_position_witness :
  partial_md5 (File (bytes_of "abcdefgh") 2) 1 2 =
  Ok (Hashlib.hex (Hashlib.digest
        (window (bytes_of "abcdefgh") 2 2 ++
         concat (sparse_samples (bytes_of "abcdefgh") 1 2 (range 0 10))))).
Proof.
  apply (partial_md5_first_sample_from_position (File (bytes_of "abcdefgh") 2));
    simpl; lia.
Defined.

Lemma partial_md5_accumulate file step size :
  partial_md5 file step size =
  (let! m := accumulate file step size in Ok (Hashlib.hexdigest m)).
Proof.
  unfold partial_md5, accumulate. by destruct (read file size).
Qed.

Lemma accumulate_spec file step size :
  0 <= step -> 0 <= size -> 0 <= pos file ->
  accumulate file step size =
  Ok (Hashlib.update Hashlib.md5
        (window (content file) (pos file) size ++
         concat (sparse_samples (content file) step size (range 0 10)))).
Proof.
  intros Hstep Hsize Hpos. unfold accumulate.
  rewrite read_spec by done.
  rewrite sample_loop_spec by (simpl; lia).
  cbn [content]. by rewrite fold_update, update_update.
Qed.

(** X7.  Changing one byte that lies inside a sampled window changes the
    bytes that [partial_md5] hands to MD5: the accumulators of the two
    streams have received different byte strings. *)
Theorem mutation_reaches_md5 (s1 s2 : list byte) step size (k : nat) :
  0 <= step -> 0 <= size -> length s1 = length s2 -> (k < length s1)%nat ->
  sampled step size (Z.of_nat k) ->
  s1 !! k <> s2 !! k ->
  exists m1 m2,
    accumulate (BytesIO s1) step size = Ok m1 /\
    accumulate (BytesIO s2) step size = Ok m2 /\
    Hashlib.fed m1 <> Hashlib.fed m2.
Proof.
  intros Hstep Hsize Hlen Hk Hsampled Hdiff.
  do 2 eexists. rewrite !accumulate_spec by (simpl; lia).
  split; [reflexivity|]. split; [reflexivity|]. simpl.
  by apply (mutation_changes_hashed_bytes s1 s2 step size k).
Qed.

Lemma mutation_reaches_md5_witness :
  exists m1 m2,
    accumulate (BytesIO (bytes_of "abcd")) 1 1 = Ok m1 /\
    accumulate (BytesIO (bytes_of "aXcd")) 1 1 = Ok m2 /\
    Hashlib.fed m1 <> Hashlib.fed m2.
Proof.
  apply (mutation_reaches_md5 (bytes_of "abcd") (bytes_of "aXcd") 1 1 1%nat);
    try lia; try reflexivity.
  - simpl. lia.
  - right. exists 0. unfold in_window. change (4 ^ 0) with 1. lia.
  - discriminate.
Defined.

Lemma sparse_samples_total_length (s : list byte) step size indices :
  0 <= size ->
  Z.of_nat (length (concat (sparse_samples s step size indices))) <=
  Z.of_nat (length indices) * size.
Proof.
  intros Hsize. induction indices as [|i indices IH]; simpl; [lia|].
  assert (Hw : Z.of_nat (length (window s (Z.shiftl step (2 * i)) size)) <= size)
    by (rewrite window_length; lia).
  destruct (window s (Z.shiftl step (2 * i)) size) as [|b w] eqn:E.
  - simpl. lia.
  - cbn [concat]. rewrite length_app. cbn [length] in *. lia.
Qed.

(** X8.  However long the stream, [partial_md5] hashes at most eleven
    samples of [size] bytes: the accumulator ends with no more than
    [11 * size] bytes. *)
Theorem partial_md5_bounded_work file step size m :
  0 <= step -> 0 <= size -> 0 <= pos file ->
  accumulate file step size = Ok m ->
  Z.of_nat (length (Hashlib.fed m)) <= 11 * size.
Proof.
  intros Hstep Hsize Hpos Hacc. rewrite accumulate_spec in Hacc by done.
  assert (Hm : Hashlib.fed m =
               window (content file) (pos file) size ++
               concat (sparse_samples (content file) step size (range 0 10))).
  { injection Hacc as <-. reflexivity. }
  rewrite Hm, length_app.
  pose proof (window_length (content file) (pos file) size).
  pose proof (sparse_samples_total_length (content file) step size (range 0 10) Hsize)
    as Hs.
  change (Z.of_nat (length (range 0 10))) with 10 in Hs. lia.
Qed.

Lemma partial_md5_bounded_work_witness :
  Z.of_nat (length (Hashlib.fed
     (Hashlib.update Hashlib.md5 (bytes_of "abe")))) <= 11 * 1.
Proof.
  apply (partial_md5_bounded_work (BytesIO (bytes_of "abcdefgh")) 1 1); try lia.
  - simpl. lia.
  - vm_compute. reflexivity.
Defined.

(** X9.  The last sampled window ends at offset [step * 4 ^ 9 + size]
    (268436480 with the defaults): two streams that are at least that long
    and agree up to there have the same fingerprint, whatever follows and
    however long they are. *)
Theorem partial_md5_prefix (s1 s2 : list byte) step size :
  0 <= step -> 0 <= size ->
  firstn (Z.to_nat (step * 4 ^ 9 + size)) s1 =
  firstn (Z.to_nat (step * 4 ^ 9 + size)) s2 ->
  step * 4 ^ 9 + size <= Z.of_nat (length s1) ->
  step * 4 ^ 9 + size <= Z.of_nat (length s2) ->
  partial_md5 (BytesIO s1) step size = partial_md5 (BytesIO s2) step size.
Proof.
  intros Hstep Hsize Hprefix Hlen1 Hlen2.
  assert (Hagree : forall k : nat,
             sampled step size (Z.of_nat k) -> s1 !! k = s2 !! k).
  { intros k Hk.
    assert (Hlt : Z.of_nat k < step * 4 ^ 9 + size).
    { destruct Hk as [Hin | (i & Hi & Hin)]; unfold in_window in Hin.
      - assert (0 <= step * 4 ^ 9) by (apply Z.mul_nonneg_nonneg; lia). lia.
      - assert (step * 4 ^ i <= step * 4 ^ 9).
        { apply Z.mul_le_mono_nonneg_l; [done|]. apply Z.pow_le_mono_r; lia. }
        lia. }
    rewrite <- (lookup_take_lt s1 (Z.to_nat (step * 4 ^ 9 + size)) k) by lia.
    rewrite <- (lookup_take_lt s2 (Z.to_nat (step * 4 ^ 9 + size)) k) by lia.
    by rewrite Hprefix. }
  rewrite !partial_md5_BytesIO by done. unfold hashed_bytes.
  rewrite (window_ext s1 s2 0 size); [|done|].
  - by rewrite (sparse_samples_ext s1 s2) by auto using range_0_10_bounds.
  - intros k Hk. apply Hagree. by left.
Qed.

Lemma partial_md5_prefix_witness :
  partial_md5 (BytesIO (repeat x61 8 ++ bytes_of "tail")) 0 8 =
  partial_md5 (BytesIO (repeat x61 8 ++ bytes_of "other ending")) 0 8.
Proof.
  apply partial_md5_prefix; try lia; try reflexivity; simpl; lia.
Defined.

Lemma partial_md5_windows_only_witness :
  partial_md5 (BytesIO (bytes_of "abcd")) 1 1 =
  partial_md5 (BytesIO (bytes_of "abXd")) 1 1.
Proof.
  apply partial_md5_windows_only; [lia | reflexivity |].
  intros k [Hin | (i & Hi & Hin)]; unfold in_window in Hin.
  - assert (k = 0%nat) as -> by lia. reflexivity.
  - destruct (decide (i = 0)) as [-> | Hne].
    + change (4 ^ 0) with 1 in Hin. assert (k = 1%nat) as -> by lia. reflexivity.
    + assert (4 ^ 1 <= 4 ^ i) by (apply Z.pow_le_mono_r; lia).
      change (4 ^ 1) with 4 in *.
      destruct k as [|[|[|[|k]]]]; try lia; reflexivity.
Defined.

Lemma le_bytes_length n z : length (Hashlib.le_bytes n z) = n.
Proof. revert z. induction n as [|n IH]; intros z; simpl; [done|]. by rewrite IH. Qed.

Lemma digest_length msg : length (Hashlib.digest msg) = 16%nat.
Proof.
  unfold Hashlib.digest. cbv zeta.
  destruct (fold_left Hashlib.compress _ Hashlib.initial) as [a b c d].
  by rewrite !length_app, !le_bytes_length.
Qed.

Lemma hex_length bs : String.length (Hashlib.hex bs) = (2 * length bs)%nat.
Proof. induction bs as [|b bs IH]; simpl; [done|]. rewrite IH. lia. Qed.

Lemma byteZ_range b : 0 <= Hashlib.byteZ b < 256.
Proof.
  unfold Hashlib.byteZ. pose proof (Byte.to_N_bounded b). lia.
Qed.

Lemma hex_digit_in z :
  0 <= z < 16 ->
  In (Hashlib.hex_digit z) (list_ascii_of_string "0123456789abcdef").
Proof.
  intros Hz. unfold Hashlib.hex_digit. apply nth_In. simpl. lia.
Qed.

Lemma hex_lowercase bs : lowercase_hex (Hashlib.hex bs).
Proof.
  unfold lowercase_hex. induction bs as [|b bs IH]; simpl; [constructor|].
  pose proof (byteZ_range b) as Hb.
  constructor; [|constructor; [|exact IH]]; apply hex_digit_in.
  - split; [apply Z.div_pos; lia | apply Z.div_lt_upper_bound; lia].
  - apply Z.mod_pos_bound. lia.
Qed.

(** X10.  Every fingerprint that [partial_md5] returns, and every digest
    that [md5] returns, is a string of 32 lowercase hexadecimal digits. *)
Theorem fingerprint_format file step size d :
  partial_md5 file step size = Ok d ->
  (String.length d = 32%nat /\ lowercase_hex d) /\
  (String.length (md5 file) = 32%nat /\ lowercase_hex (md5 file)).
Proof.
  intros Hd. split.
  - rewrite partial_md5_accumulate in Hd.
    destruct (accumulate file step size) as [m|e]; [|discriminate].
    injection Hd as <-. unfold Hashlib.hexdigest.
    split; [by rewrite hex_length, digest_length | apply hex_lowercase].
  - unfold md5, Hashlib.hexdigest.
    split; [by rewrite hex_length, digest_length | apply hex_lowercase].
Qed.

Lemma fingerprint_format_witness :
  (String.length "900150983cd24fb0d6963f7d28e17f72" = 32%nat /\
   lowercase_hex "900150983cd24fb0d6963f7d28e17f72") /\
  (String.length (md5 (BytesIO (bytes_of "abc"))) = 32%nat /\
   lowercase_hex (md5 (BytesIO (bytes_of "abc")))).
Proof.
  apply (fingerprint_format (BytesIO (bytes_of "abc")) 1024 1024).
  vm_compute. reflexivity.
Defined.

Lemma md5name_buffering_witness :
  md5name (File (bytes_of "xxminimal-v3plus2.epub") 2) false =
  Hashlib.hex (Hashlib.digest
                 (skipn (Z.to_nat 2) (bytes_of "xxminimal-v3plus2.epub"))).
Proof.
  apply (md5name_buffering (File (bytes_of "xxminimal-v3plus2.epub") 2) false).
  simpl. lia.
Defined.

(** The command prints the digest that the project's README gives for the
    name of its sample book, read from a pipe. *)
Example md5name_of_piped_name :
  md5name (BytesIO (bytes_of "minimal-v3plus2.epub")) false =
  "35322b7036d0c3298eedde8c30429693".
Proof. vm_compute. reflexivity. Qed.

End FingerprintCoverage.

(** * More properties of the sync service *)

Section SyncCoverage.
Context `{PythonRuntime}.
Import Py Kss SyncSpec StoreSpec.

Lemma register_body_not_object disabled req fs js :
  req_body req = JsonBody js -> (forall m, js <> JObj m) ->
  register disabled req fs =
  if disabled
  then (Ok (JObj {[ "message" := JStr "User registration disabled";
                    "code" := JInt 3001 ]}, 403), fs)
  else (Raise AttributeError, fs).
Proof.
  intros Hbody Hjs. unfold register, mbind, is_json, get_json. rewrite Hbody.
  destruct disabled; [done|].
  destruct js; try done. by destruct (Hjs m).
Qed.

(** What a registration does to the state directory: nothing, with an
    answer other than 201, or it adds the auth file of a user who had none. *)
Lemma register_effect disabled req fs :
  (snd (register disabled req fs) = fs /\
   forall body, fst (register disabled req fs) <> Ok (body, 201)) \/
  exists m user password,
    disabled = false /\
    req_body req = JsonBody (JObj m) /\
    m !! "username" = Some (JStr user) /\ user <> "" /\
    m !! "password" = Some (JStr password) /\ password <> "" /\
    fs !! kss_auth_file user = None /\
    register disabled req fs =
      (Ok (JObj {[ "username" := JStr user ]}, 201),
       <[kss_auth_file user := credential user password]> fs).
Proof.
  destruct disabled; [by left|].
  destruct (req_body req) as [| |js] eqn:Hbody.
  1,2: left; unfold register, mbind, is_json, get_json; rewrite Hbody; done.
  assert (Hcases : (exists m, js = JObj m) \/ (forall m, js <> JObj m))
    by (destruct js; eauto).
  destruct Hcases as [[m ->]|Hjs].
  2: { left. by rewrite (register_body_not_object false req fs js Hbody). }
  rewrite (register_object req fs m Hbody). cbv zeta.
  destruct (m !! "username") as [user|] eqn:Hu; cbn [from_option id];
    [|by left].
  destruct user as [| | | |user| |]; cbn [truthy isinstance_str andb negb];
    try (by left); try (by rewrite andb_false_r; left).
  destruct (String.eqb_spec user "") as [->|Hune]; cbn [negb andb]; [by left|].
  destruct (m !! "password") as [password|] eqn:Hp; cbn [from_option id];
    [|by left].
  destruct password as [| | | |password| |];
    cbn [truthy isinstance_str andb negb orb];
    try (by left); try (by rewrite orb_true_r; left).
  destruct (String.eqb_spec password "") as [->|Hpne]; cbn [negb orb]; [by left|].
  cbn [str_value].
  destruct (fs !! kss_auth_file user) as [c|] eqn:Hfile.
  - rewrite bool_decide_eq_true_2 by eauto. by left.
  - rewrite bool_decide_eq_false_2 by (by intros [? ?]).
    right. exists m, user, password. repeat (split; [done|]). reflexivity.
Qed.

Lemma push_body_not_object now req fs user js :
  kss_auth req fs = (Ok (Some user), fs) ->
  req_body req = JsonBody js -> (forall m, js <> JObj m) ->
  push now req fs = (Raise AttributeError, fs).
Proof.
  intros Hauth Hbody Hjs.
  destruct (kss_auth_Some _ _ _ _ Hauth) as (_ & Htruthy & _).
  unfold push, mbind, is_json, get_json. rewrite Hauth, Htruthy, Hbody.
  destruct js; try done. by destruct (Hjs m).
Qed.

(** What a push does to the state directory: nothing, with an answer other
    than 200, or it puts the record of the body at the key of the
    authenticated user and the document. *)
Lemma push_effect now req fs :
  (snd (push now req fs) = fs /\
   forall body, fst (push now req fs) <> Ok (body, 200)) \/
  exists user m document,
    kss_auth req fs = (Ok (Some user), fs) /\
    req_body req = JsonBody (JObj m) /\
    m !! "document" = Some document /\ truthy document = true /\
    push now req fs =
      (Ok (JObj {[ "document" := document; "timestamp" := JInt now ]}, 200),
       <[kss_path user (format document) := JObj (stored_record m now)]> fs).
Proof.
  destruct (kss_auth req fs) as [[[user|]|e] fs'] eqn:Hauth;
    pose proof (kss_auth_reads req fs) as Hfs; rewrite Hauth in Hfs;
    simpl in Hfs; subst fs'.
  2: left; by rewrite push_unauthorized.
  2: left; unfold push, mbind; by rewrite Hauth.
  destruct (kss_auth_Some _ _ _ _ Hauth) as (Huser & Htruthy & _).
  destruct (req_body req) as [| |js] eqn:Hbody.
  1,2: left; unfold push, mbind, is_json, get_json;
       rewrite Hauth, Htruthy, Hbody; done.
  assert (Hcases : (exists m, js = JObj m) \/ (forall m, js <> JObj m))
    by (destruct js; eauto).
  destruct Hcases as [[m ->]|Hjs].
  2: left; by rewrite (push_body_not_object now req fs user js).
  rewrite (push_authenticated now req fs user m Hauth Hbody). cbv zeta.
  destruct (m !! "document") as [document|] eqn:Hd; [|by left].
  cbn [from_option id]. destruct (truthy document) eqn:Ht; [|by left].
  right. by exists user, m, document.
Qed.

(** *** The files that the paths name *)

Lemma split_slash_free (s : string) :
  Paths.slash_free s = true -> Pathlib.split s = [s].
Proof.
  induction s as [|c s IH]; simpl; [done|].
  intros [Hc Hs]%andb_true_iff. apply negb_true_iff in Hc. rewrite Hc.
  by rewrite (IH Hs).
Qed.

Lemma root_of_slash_free (s : string) :
  Paths.slash_free s = true -> Pathlib.root_of s = "".
Proof.
  destruct s as [|c s]; simpl; [done|].
  intros [Hc _]%andb_true_iff. apply negb_true_iff in Hc. by rewrite Hc.
Qed.

Lemma parse_component (s : string) :
  Paths.slash_free s = true -> s <> "" -> s <> "." -> Pathlib.parse s = [s].
Proof.
  intros Hs H1 H2. unfold Pathlib.parse. rewrite (split_slash_free s Hs).
  apply String.eqb_neq in H1, H2. simpl. by rewrite H1, H2.
Qed.

Lemma joinpath_component (p : Pathlib.PurePath) (s : string) :
  Paths.slash_free s = true -> s <> "" -> s <> "." ->
  Pathlib.joinpath p s =
  {| Pathlib.root := Pathlib.root p; Pathlib.names := Pathlib.names p ++ [s] |}.
Proof.
  intros Hs H1 H2. unfold Pathlib.joinpath.
  by rewrite (root_of_slash_free s Hs), (parse_component s Hs H1 H2).
Qed.

Lemma slash_free_append (a b : string) :
  Paths.slash_free (String.append a b) =
  Paths.slash_free a && Paths.slash_free b.
Proof.
  induction a as [|c a IH]; simpl; [done|]. by rewrite IH, andb_assoc.
Qed.

Lemma component_spec (s : string) :
  Paths.component s = true <->
  Paths.slash_free s = true /\ s <> "" /\ s <> "." /\ s <> "..".
Proof.
  unfold Paths.component. rewrite !andb_true_iff, !negb_true_iff.
  rewrite !String.eqb_neq. tauto.
Qed.

Lemma file_name_json (d : string) :
  String.append d ".json" <> "" /\ String.append d ".json" <> ".".
Proof.
  split; intros Heq; apply (f_equal String.length) in Heq;
    rewrite length_append in Heq; simpl in Heq; lia.
Qed.

Lemma kss_dir_component kss_root user :
  Paths.component user = true ->
  Paths.kss_dir kss_root user =
  {| Pathlib.root := Pathlib.root kss_root;
     Pathlib.names := Pathlib.names kss_root ++ [user] |}.
Proof.
  intros (Hs & H1 & H2 & _)%component_spec. by apply joinpath_component.
Qed.

Lemma kss_path_component kss_root user document :
  Paths.component user = true -> Paths.slash_free document = true ->
  Paths.kss_path kss_root user document =
  {| Pathlib.root := Pathlib.root kss_root;
     Pathlib.names :=
       Pathlib.names kss_root ++ [user; String.append document ".json"] |}.
Proof.
  intros Hu Hd. unfold Paths.kss_path. rewrite (kss_dir_component _ _ Hu).
  destruct (file_name_json document) as [H1 H2].
  rewrite joinpath_component; [|by rewrite slash_free_append, Hd|done..].
  cbn [Pathlib.root Pathlib.names]. by rewrite <- app_assoc.
Qed.

Lemma kss_auth_file_component kss_root user :
  Paths.component user = true ->
  Paths.kss_auth_file kss_root user =
  {| Pathlib.root := Pathlib.root kss_root;
     Pathlib.names := Pathlib.names kss_root ++ [user; "auth.json"] |}.
Proof.
  intros Hu. unfold Paths.kss_auth_file. rewrite (kss_dir_component _ _ Hu).
  rewrite joinpath_component by done.
  cbn [Pathlib.root Pathlib.names]. by rewrite <- app_assoc.
Qed.

(** X11.  For user names that are single path components and documents
    without a slash, the joined paths of two keys (user, document) are the
    same path only when they are the same key, and the path of a progress
    file is the path of some user's auth file only for that user's document
    named [auth]; the pair of the directory and the file name identifies
    the file exactly as the joined path does. *)
Theorem kss_path_single_components kss_root user document user' document' :
  Paths.component user = true -> Paths.component user' = true ->
  Paths.slash_free document = true -> Paths.slash_free document' = true ->
  (Paths.kss_path kss_root user document =
     Paths.kss_path kss_root user' document' <->
   user = user' /\ document = document') /\
  (Paths.kss_path kss_root user document = Paths.kss_auth_file kss_root user' <->
   user = user' /\ document = "auth") /\
  (Paths.kss_path kss_root user document =
     Paths.kss_path kss_root user' document' <->
   kss_path user document = kss_path user' document') /\
  (Paths.kss_path kss_root user document = Paths.kss_auth_file kss_root user' <->
   kss_path user document = kss_auth_file user').
Proof.
  intros Hu Hu' Hd Hd'.
  rewrite !kss_path_component, !kss_auth_file_component by done.
  assert (H1 : forall f f' : string,
             {| Pathlib.root := Pathlib.root kss_root;
                Pathlib.names := Pathlib.names kss_root ++ [user; f] |} =
             {| Pathlib.root := Pathlib.root kss_root;
                Pathlib.names := Pathlib.names kss_root ++ [user'; f'] |} <->
             user = user' /\ f = f').
  { intros f f'. split.
    - intros [= Heq]. apply app_inv_head in Heq. by injection Heq.
    - by intros [-> ->]. }
  rewrite !H1. unfold kss_path, kss_auth_file, kss_dir.
  assert (Hjson : String.append document ".json" = String.append document' ".json"
                  <-> document = document').
  { split; [apply append_inj_suffix | by intros ->]. }
  assert (Hauth : String.append document ".json" = "auth.json"
                  <-> document = "auth").
  { split; [apply append_json_auth | by intros ->]. }
  rewrite Hjson, Hauth.
  split; [done|]. split; [done|]. split.
  - split.
    + by intros [-> ->].
    + intros [= -> Hd0]. split; [done | by apply Hjson].
  - split.
    + by intros [-> ->].
    + intros [= -> Hd0]. split; [done | by apply Hauth].
Qed.

Lemma split_trailing_slash (s : string) :
  Paths.slash_free s = true ->
  Pathlib.split (String.append s "/") = [s; ""].
Proof.
  induction s as [|c s IH]; simpl; [done|].
  intros [Hc Hs]%andb_true_iff. apply negb_true_iff in Hc. rewrite Hc.
  by rewrite (IH Hs).
Qed.

Lemma root_of_relative (c : ascii) (s : string) :
  Ascii.eqb c "/" = false -> Pathlib.root_of (String c s) = "".
Proof. intros Hc. simpl. by rewrite Hc. Qed.

(** Without these conditions the join identifies more: a leading [./] of a
    document is dropped, so [./auth] names the auth file, and so is a
    trailing slash of a user name. *)
Lemma kss_path_aliases kss_root user document :
  Paths.component user = true -> Paths.slash_free document = true ->
  Paths.kss_path kss_root user (String.append "./" document) =
    Paths.kss_path kss_root user document /\
  Paths.kss_dir kss_root (String.append user "/") = Paths.kss_dir kss_root user.
Proof.
  intros Hu Hd. split.
  - unfold Paths.kss_path. generalize (Paths.kss_dir kss_root user) as p.
    intros p. unfold Pathlib.joinpath.
    rewrite (root_of_slash_free (String.append document ".json"))
      by (by rewrite slash_free_append, Hd).
    reflexivity.
  - apply component_spec in Hu as (Hs & H1 & H2 & _).
    unfold Paths.kss_dir, Pathlib.joinpath.
    rewrite (root_of_slash_free user Hs).
    destruct user as [|c user]; [done|].
    simpl in Hs. apply andb_true_iff in Hs as [Hc Hs'].
    apply negb_true_iff in Hc.
    change (String.append (String c user) "/")
      with (String c (String.append user "/")).
    rewrite (root_of_relative c _ Hc). cbn [String.eqb].
    unfold Pathlib.parse.
    change (String c (String.append user "/"))
      with (String.append (String c user) "/").
    rewrite split_trailing_slash by (simpl; by rewrite Hc, Hs').
    rewrite split_slash_free by (simpl; by rewrite Hc, Hs').
    simpl. reflexivity.
Qed.

(** X12.  In a state directory whose auth files are credential records,
    [login] answers 200 with [authorized: OK] when the request carries the
    name and the stored secret of a registered user, answers 401 with code
    2001 otherwise, and never changes the store. *)
Theorem login_outcome req fs :
  credentials_ok fs ->
  ((exists user, authenticates req fs user) ->
     login req fs = (Ok (JObj {[ "authorized" := JStr "OK" ]}, 200), fs)) /\
  ((~ exists user, authenticates req fs user) ->
     login req fs =
       (Ok (JObj {[ "message" := JStr "Unauthorized"; "code" := JInt 2001 ]},
            401), fs)).
Proof.
  intros Hok. split.
  - intros [user Hauth]. apply (kss_auth_iff req fs user Hok) in Hauth.
    destruct (kss_auth_Some _ _ _ _ Hauth) as (_ & Htruthy & _).
    unfold login, mbind. by rewrite Hauth, Htruthy.
  - intros Hnone.
    destruct (kss_auth_total req fs Hok) as [Hauth|[user Hauth]].
    + unfold login, mbind. by rewrite Hauth.
    + destruct Hnone. exists user. by apply kss_auth_iff.
Qed.

(** X13.  Registering a user who has no auth file, with a non-empty name and
    secret, answers 201 with the name; afterwards a request with that name
    authenticates with exactly that secret and with no other key. *)
Theorem register_then_authenticate req fs m user password :
  req_body req = JsonBody (JObj m) ->
  m !! "username" = Some (JStr user) -> user <> "" ->
  m !! "password" = Some (JStr password) -> password <> "" ->
  fs !! kss_auth_file user = None ->
  exists fs',
    register false req fs = (Ok (JObj {[ "username" := JStr user ]}, 201), fs') /\
    forall key b,
      kss_auth (Request (Some user) (Some key) b) fs' =
      (Ok (if String.eqb key password then Some user else None), fs').
Proof.
  intros Hbody Hu Hune Hp Hpne Hfile.
  exists (<[kss_auth_file user := credential user password]> fs). split.
  - rewrite (register_object req fs m Hbody), Hu, Hp.
    cbn [from_option id truthy isinstance_str str_value]. cbv zeta.
    apply String.eqb_neq in Hune, Hpne. rewrite Hune, Hpne. cbn [negb andb orb].
    rewrite Hfile. rewrite bool_decide_eq_false_2 by (by intros [? ?]).
    reflexivity.
  - intros key b. rewrite kss_auth_unfold. cbn [x_auth_user x_auth_key str_truthy].
    apply String.eqb_neq in Hune. rewrite Hune. cbn [negb andb default from_option id].
    destruct (String.eqb_spec key "") as [->|Hkne]; cbn [negb].
    + apply String.eqb_neq in Hpne. rewrite String.eqb_sym. by rewrite Hpne.
    + rewrite lookup_insert_eq, check_credential.
      rewrite (String.eqb_sym password key). reflexivity.
Qed.

(** X14.  Whatever the request, [register] changes the state directory only
    when it answers 201, and never changes or removes a file that is there:
    it can only add the auth file of a user who had none. *)
Theorem register_adds_only disabled req fs :
  (forall p c, fs !! p = Some c ->
     snd (register disabled req fs) !! p = Some c) /\
  ((forall body, fst (register disabled req fs) <> Ok (body, 201)) ->
     snd (register disabled req fs) = fs).
Proof.
  destruct (register_effect disabled req fs)
    as [[Hsame _] | (m & user & password & _ & _ & _ & _ & _ & _ & Hfile & Hreg)].
  - rewrite Hsame. by split.
  - rewrite Hreg. split.
    + intros p c Hp. simpl. rewrite lookup_insert_ne; [done|].
      intros Heq. subst p.
      assert (Hcontra : Some c = None) by (rewrite <- Hp; exact Hfile).
      discriminate.
    + intros Hnot. by destruct (Hnot (JObj {[ "username" := JStr user ]})).
Qed.

(** X15.  A push changes the state directory only when it answers 200, and
    then it changes one file only: the record of the authenticated user for
    the document of the body.  A refused or failed push writes nothing. *)
Theorem push_writes_on_success_only now req fs :
  ((forall body, fst (push now req fs) <> Ok (body, 200)) ->
     snd (push now req fs) = fs) /\
  (forall p, snd (push now req fs) !! p <> fs !! p ->
     exists user m document,
       kss_auth req fs = (Ok (Some user), fs) /\
       req_body req = JsonBody (JObj m) /\
       m !! "document" = Some document /\
       p = kss_path user (format document) /\
       fst (push now req fs) =
         Ok (JObj {[ "document" := document; "timestamp" := JInt now ]}, 200)).
Proof.
  destruct (push_effect now req fs)
    as [[Hsame _] | (user & m & document & Hauth & Hbody & Hdoc & Ht & Hpush)].
  - rewrite Hsame. split; [done|]. by intros p [].
  - rewrite Hpush. split.
    + intros Hnot.
      by destruct (Hnot (JObj {[ "document" := document;
                                 "timestamp" := JInt now ]})).
    + intros p Hp. simpl in Hp. exists user, m, document.
      repeat (split; [done|]). split; [|done].
      destruct (decide (p = kss_path user (format document))) as [|Hne]; [done|].
      by rewrite lookup_insert_ne in Hp.
Qed.

(** X16.  A JSON body that parses but is not an object (a list, a string, a
    number, [null]) makes [register], and [push] for an authenticated user,
    raise [AttributeError] instead of answering with an error response; the
    store is left as it was. *)
Theorem body_not_object_raises now req fs js :
  req_body req = JsonBody js ->
  (forall m, js <> JObj m) ->
  register false req fs = (Raise AttributeError, fs) /\
  (forall user, kss_auth req fs = (Ok (Some user), fs) ->
     push now req fs = (Raise AttributeError, fs)).
Proof.
  intros Hbody Hjs. split.
  - by rewrite (register_body_not_object false req fs js).
  - intros user Hauth. by apply (push_body_not_object now req fs user js).
Qed.

(** X17.  A push under a user name and for a document that are single
    components never touches the directory of another user: every file of a
    user other than the one named in the request, the auth file included,
    is after the push what it was before. *)
Theorem push_other_users now req fs user' file_name :
  Paths.plain_push req ->
  Paths.component user' = true -> Paths.component file_name = true ->
  x_auth_user req <> Some user' ->
  snd (push now req fs) !! (kss_dir user', file_name) =
  fs !! (kss_dir user', file_name).
Proof.
  intros _ _ _ Hother. apply push_other_paths.
  intros user Huser (d & _ & Heq).
  unfold kss_path, kss_dir in Heq. injection Heq as -> _.
  by destruct Hother.
Qed.


Lemma pull_auth_raises document req fs e :
  kss_auth req fs = (Raise e, fs) -> pull document req fs = (Raise e, fs).
Proof. intros Hauth. unfold pull, mbind. by rewrite Hauth. Qed.

Lemma pull_stored_not_object document req fs user js :
  kss_auth req fs = (Ok (Some user), fs) ->
  fs !! kss_path user document = Some js -> (forall m, js <> JObj m) ->
  pull document req fs = (Raise AttributeError, fs).
Proof.
  intros Hauth Hfile Hjs.
  destruct (kss_auth_Some _ _ _ _ Hauth) as (_ & Htruthy & _).
  unfold pull, mbind. rewrite Hauth, Htruthy. cbn [negb default from_option id].
  unfold path_exists, load. rewrite Hfile.
  rewrite bool_decide_eq_true_2 by eauto.
  cbn [negb]. rewrite Hfile. cbn [lift].
  destruct js; try done. by destruct (Hjs m).
Qed.

(** The answer of [pull] is a function of the outcome of the authentication
    and of the file at the key. *)
Lemma pull_answer document req fs :
  fst (pull document req fs) =
  match fst (kss_auth req fs) with
  | Raise e => Raise e
  | Ok None => Ok unauthorized
  | Ok (Some user) =>
      match fs !! kss_path user document with
      | None => Ok (JObj {[ "document" := JStr document ]}, 200)
      | Some (JObj m) => Ok (kss_response 200 (pull_result m))
      | Some _ => Raise AttributeError
      end
  end.
Proof.
  destruct (kss_auth req fs) as [[[user|]|e] fs'] eqn:Hauth;
    pose proof (kss_auth_reads req fs) as Hfs; rewrite Hauth in Hfs;
    simpl in Hfs; subst fs'; cbn [fst].
  - destruct (fs !! kss_path user document) as [js|] eqn:Hfile.
    + assert (Hcases : (exists m, js = JObj m) \/ (forall m, js <> JObj m))
        by (destruct js; eauto).
      destruct Hcases as [[m ->]|Hjs].
      * by rewrite (pull_authenticated document req fs user m).
      * rewrite (pull_stored_not_object document req fs user js) by done.
        destruct js; try done. by destruct (Hjs m).
    + by rewrite (pull_no_record document req fs user).
  - by rewrite pull_unauthorized.
  - by rewrite (pull_auth_raises document req fs e).
Qed.

(** X18.  The answer of [pull] depends on the directory of the user named in
    the request and on nothing else in the store: whatever other users have
    registered or pushed does not show. *)
Theorem pull_own_directory_only document req fs1 fs2 :
  (forall user file_name, x_auth_user req = Some user ->
     fs1 !! (kss_dir user, file_name) = fs2 !! (kss_dir user, file_name)) ->
  fst (pull document req fs1) = fst (pull document req fs2).
Proof.
  intros Hagree. rewrite !pull_answer.
  assert (Hauth : fst (kss_auth req fs1) = fst (kss_auth req fs2)).
  { rewrite !kss_auth_unfold. cbn [fst].
    destruct (x_auth_user req) as [user|]; [|done].
    cbn [default from_option id].
    replace (fs1 !! kss_auth_file user) with (fs2 !! kss_auth_file user);
      [done|]. symmetry. apply (Hagree user "auth.json" eq_refl). }
  rewrite <- Hauth.
  destruct (fst (kss_auth req fs1)) as [[user|]|e] eqn:Hres; try done.
  assert (Huser : x_auth_user req = Some user).
  { destruct (kss_auth req fs1) as [r fs'] eqn:Hk.
    pose proof (kss_auth_reads req fs1) as Hfs. rewrite Hk in Hfs.
    simpl in Hfs, Hres. subst.
    by destruct (kss_auth_Some _ _ _ _ Hk) as (Hu & _ & _). }
  replace (fs1 !! kss_path user document) with (fs2 !! kss_path user document);
    [done|]. symmetry. apply (Hagree user _ Huser).
Qed.

Lemma present_truthy_stored_record (m : gmap string json) now key :
  key = "progress" \/ key = "device" \/ key = "device_id" ->
  present_truthy (stored_record m now) key = present_truthy m key.
Proof.
  intros Hkey. destruct (stored_record_fields m now) as (_ & Hdefaults & _ & _).
  unfold present_truthy at 1. rewrite (Hdefaults key Hkey).
  by rewrite present_truthy_default.
Qed.

(** X19.  Push, then pull: the pull of the document by the same user answers
    200 with the server time of the push as timestamp (the time 0 excepted,
    which [pull] takes for no timestamp), with [progress], [device] and
    [device_id] as pushed when they are truthy, and with the pushed
    percentage as the float it converts to when that float is not zero. *)
Theorem push_then_pull_fields now req req' fs fs' user m document :
  kss_auth req fs = (Ok (Some user), fs) ->
  req_body req = JsonBody (JObj m) ->
  m !! "document" = Some (JStr document) -> document <> "" ->
  fs' = snd (push now req fs) ->
  kss_auth req' fs' = (Ok (Some user), fs') ->
  exists r : response,
    pull document req' fs' = (Ok r, fs') /\
    snd r = 200 /\
    field_of r "timestamp" = (if now =? 0 then None else Some (JInt now)) /\
    (forall key, key = "progress" \/ key = "device" \/ key = "device_id" ->
       field_of r key = present_truthy m key) /\
    field_of r "percentage" =
      match present_truthy m "percentage" with
      | Some p =>
          match float p with
          | Some f => if truthy (JFloat f) then Some (JFloat f) else None
          | None => None
          end
      | None => None
      end.
Proof.
  intros Hauth Hbody Hdoc Hne -> Hauth'.
  assert (Hfile : snd (push now req fs) !! kss_path user document =
                  Some (JObj (stored_record m now))).
  { rewrite (push_authenticated now req fs user m Hauth Hbody), Hdoc.
    cbn [from_option id truthy format]. apply String.eqb_neq in Hne.
    rewrite Hne. cbn [negb snd]. apply lookup_insert_eq. }
  exists (kss_response 200 (pull_result (stored_record m now))).
  split; [by apply (pull_authenticated document req' _ user)|].
  split; [reflexivity|].
  destruct (stored_record_fields m now) as (Hts & _ & Hpercentage & _).
  split; [|split].
  - rewrite field_of_kss_response, pull_result_lookup.
    repeat case_decide; try done.
    unfold present_truthy. rewrite Hts. cbn [truthy int].
    destruct (now =? 0); reflexivity.
  - intros key Hkey. rewrite field_of_kss_response, pull_result_lookup.
    rewrite <- (present_truthy_stored_record m now key Hkey).
    destruct Hkey as [-> | [-> | ->]]; repeat case_decide; try done;
      exfalso; intuition congruence.
  - rewrite field_of_kss_response, pull_result_lookup.
    repeat case_decide; try done.
    unfold present_truthy. rewrite Hpercentage.
    destruct (m !! "percentage") as [p|]; [|done]. cbn [fmap option_fmap option_map].
    unfold coerce_percentage. destruct (truthy p) eqn:Hp.
    + destruct (float p) as [f|]; [|done].
      destruct (truthy (JFloat f)); done.
    + by rewrite Hp.
Qed.

(** X20.  Last write wins, with no merge: after two pushes of the same
    document by the same user the store is what the second push alone would
    have left, so nothing of the first record remains. *)
Theorem last_write_wins now1 now2 req1 req2 fs user m1 m2 doc1 doc2 :
  kss_auth req1 fs = (Ok (Some user), fs) ->
  req_body req1 = JsonBody (JObj m1) ->
  m1 !! "document" = Some doc1 -> truthy doc1 = true ->
  kss_auth req2 (snd (push now1 req1 fs)) =
    (Ok (Some user), snd (push now1 req1 fs)) ->
  req_body req2 = JsonBody (JObj m2) ->
  m2 !! "document" = Some doc2 -> truthy doc2 = true ->
  format doc1 = format doc2 ->
  snd (push now2 req2 (snd (push now1 req1 fs))) =
    <[kss_path user (format doc2) := JObj (stored_record m2 now2)]> fs /\
  snd (push now2 req2 (snd (push now1 req1 fs))) !! kss_path user (format doc2) =
    Some (JObj (stored_record m2 now2)).
Proof.
  intros Hauth1 Hbody1 Hdoc1 Ht1 Hauth2 Hbody2 Hdoc2 Ht2 Hsame.
  rewrite (push_authenticated now2 req2 _ user m2 Hauth2 Hbody2).
  rewrite Hdoc2. cbn [from_option id]. rewrite Ht2. cbn [snd].
  rewrite (push_authenticated now1 req1 fs user m1 Hauth1 Hbody1).
  rewrite Hdoc1. cbn [from_option id]. rewrite Ht1. cbn [snd].
  rewrite Hsame. split; [apply insert_insert_eq | apply lookup_insert_eq].
Qed.

(** X21.  [pull] returns nothing but the five progress members: whatever
    else the stored record holds (the document, any other member that the
    client put in the body of its push) is not in the response. *)
Theorem pull_members_only document req fs user m :
  kss_auth req fs = (Ok (Some user), fs) ->
  fs !! kss_path user document = Some (JObj m) ->
  exists r : response,
    pull document req fs = (Ok r, fs) /\
    forall key, ~ pulled_member key -> field_of r key = None.
Proof.
  intros Hauth Hfile. exists (kss_response 200 (pull_result m)).
  split; [by apply (pull_authenticated document req fs user)|].
  intros key Hkey. rewrite field_of_kss_response, pull_result_lookup.
  unfold pulled_member in Hkey.
  repeat case_decide; try done; exfalso; apply Hkey; intuition.
Qed.

(** X22.  A stored credential is never changed or removed: along every
    sequence of calls that name their files by single components and in
    which no push is for a document named [auth], the auth file of a
    registered user stays what it is. *)
Theorem credential_immutable calls : forall fs user c,
  Forall Paths.plain calls -> Forall conforming calls ->
  Paths.component user = true ->
  fs !! kss_auth_file user = Some c ->
  run calls fs !! kss_auth_file user = Some c.
Proof.
  induction calls as [|call calls IH]; intros fs user c Hplain Hconf Hu Hfile;
    [done|].
  inversion Hconf as [|? ? Hcall Hcalls]; subst.
  inversion Hplain as [|? ? _ Hplains]; subst. simpl.
  apply IH; [done..|].
  destruct call as [disabled req|req|now req|document req]; simpl.
  - by apply register_keeps.
  - by rewrite login_reads.
  - rewrite push_other_paths; [done|].
    intros user' Huser (d & Hnames & Heq). apply Hcall.
    symmetry in Heq. unfold kss_path, kss_auth_file in Heq.
    injection Heq as _ Heq. apply append_json_auth in Heq. by subst d.
  - by rewrite pull_reads.
Qed.

(** X25.  A push of a document named [auth] overwrites the auth file of the
    user who pushes it: unless the body itself carries an [x-auth-user]
    member, every later authentication under that name raises [KeyError],
    and so does [login]. *)
Theorem push_auth_locks_out now req fs user m :
  kss_auth req fs = (Ok (Some user), fs) ->
  req_body req = JsonBody (JObj m) ->
  m !! "document" = Some (JStr "auth") ->
  m !! "x-auth-user" = None ->
  forall key b, key <> "" ->
    kss_auth (Request (Some user) (Some key) b) (snd (push now req fs)) =
      (Raise KeyError, snd (push now req fs)) /\
    login (Request (Some user) (Some key) b) (snd (push now req fs)) =
      (Raise KeyError, snd (push now req fs)).
Proof.
  intros Hauth Hbody Hdoc Huser key b Hkey.
  destruct (kss_auth_Some _ _ _ _ Hauth) as (_ & Htruthy & _).
  assert (Hk : kss_auth (Request (Some user) (Some key) b) (snd (push now req fs)) =
               (Raise KeyError, snd (push now req fs))).
  { rewrite kss_auth_unfold. cbn [x_auth_user x_auth_key].
    rewrite Htruthy. apply String.eqb_neq in Hkey.
    cbn [str_truthy]. rewrite Hkey. cbn [negb andb default from_option id].
    rewrite (push_authenticated now req fs user m Hauth Hbody), Hdoc.
    cbn [from_option id truthy String.eqb Ascii.eqb Bool.eqb negb format snd].
    change (kss_path user "auth") with (kss_auth_file user).
    rewrite lookup_insert_eq. unfold check_credentials, getitem.
    destruct (stored_record_fields m now) as (_ & _ & _ & Hrest).
    rewrite Hrest by done. by rewrite Huser. }
  split; [done|]. unfold login, mbind. by rewrite Hk.
Qed.

(** X26.  [register] answers 201 only when registration is enabled, the
    body is a JSON object whose [username] and [password] are non-empty
    strings, and no auth file was there for that name; the answer then
    carries the name. *)
Theorem register_created_only_if disabled req fs body :
  fst (register disabled req fs) = Ok (body, 201) ->
  disabled = false /\
  exists m user password,
    req_body req = JsonBody (JObj m) /\
    m !! "username" = Some (JStr user) /\ user <> "" /\
    m !! "password" = Some (JStr password) /\ password <> "" /\
    fs !! kss_auth_file user = None /\
    body = JObj {[ "username" := JStr user ]}.
Proof.
  intros Hbody.
  destruct (register_effect disabled req fs)
    as [[_ Hnot] | (m & user & password & Hd & Hb & Hu & Hune & Hp & Hpne & Hf & Hreg)].
  - by destruct (Hnot body).
  - split; [done|]. exists m, user, password.
    repeat (split; [done|]). rewrite Hreg in Hbody. by injection Hbody.
Qed.

(** X27.  [push] answers 200 only when the request authenticates, its body
    is a JSON object, and the object has a truthy [document]; the answer
    then carries that document and the server time. *)
Theorem push_accepted_only_if now req fs body :
  fst (push now req fs) = Ok (body, 200) ->
  exists user m document,
    kss_auth req fs = (Ok (Some user), fs) /\
    req_body req = JsonBody (JObj m) /\
    m !! "document" = Some document /\ truthy document = true /\
    body = JObj {[ "document" := document; "timestamp" := JInt now ]}.
Proof.
  intros Hbody.
  destruct (push_effect now req fs)
    as [[_ Hnot] | (user & m & document & Hauth & Hb & Hd & Ht & Hpush)].
  - by destruct (Hnot body).
  - exists user, m, document. repeat (split; [done|]).
    rewrite Hpush in Hbody. by injection Hbody.
Qed.

(** *** A document named like the auth file

    [kss_path user "auth"] is [kss_auth_file user]: the credential is kept
    among the records of the user's documents. *)

Lemma push_auth_raises now req fs e :
  kss_auth req fs = (Raise e, fs) -> push now req fs = (Raise e, fs).
Proof. intros Hauth. unfold push, mbind. by rewrite Hauth. Qed.

Lemma kss_auth_no_user_member user key b fs m :
  user <> "" -> key <> "" ->
  fs !! kss_auth_file user = Some (JObj m) -> m !! "x-auth-user" = None ->
  kss_auth (Request (Some user) (Some key) b) fs = (Raise KeyError, fs).
Proof.
  intros Hu Hk Hfile Hm. rewrite kss_auth_unfold. cbn [x_auth_user x_auth_key].
  apply String.eqb_neq in Hu, Hk. cbn [str_truthy]. rewrite Hu, Hk.
  cbn [negb andb default from_option id]. rewrite Hfile.
  unfold check_credentials, getitem. by rewrite Hm.
Qed.

Lemma alice_registered :
  run [Register false SampleRuntime.registration] ∅ !! kss_auth_file "alice" =
  Some (credential "alice" SampleRuntime.alice_key).
Proof. reflexivity. Qed.

Lemma alice_auth_pushed :
  exists m,
    run [Register false SampleRuntime.registration;
         Push 1751935136
           (SampleRuntime.as_alice (JsonBody (JObj SampleCalls.auth_body)))] ∅
      !! kss_auth_file "alice" = Some (JObj m) /\
    m !! "x-auth-user" = None.
Proof.
  exists (stored_record SampleCalls.auth_body 1751935136).
  split; [|reflexivity].
  change (run _ ∅) with
    (snd (push 1751935136
            (SampleRuntime.as_alice (JsonBody (JObj SampleCalls.auth_body)))
            (run [Register false SampleRuntime.registration] ∅))).
  rewrite (push_authenticated 1751935136 _ _ "alice" SampleCalls.auth_body);
    [apply lookup_insert_eq | | reflexivity].
  rewrite kss_auth_unfold. cbn [SampleRuntime.as_alice x_auth_user x_auth_key].
  change (str_truthy (Some "alice") && str_truthy (Some SampleRuntime.alice_key))
    with true. cbn [default from_option id].
  rewrite alice_registered, check_credential. by rewrite String.eqb_refl.
Qed.

(** C6.  Alice registers and pushes a document named [auth], which [push]
    writes over her auth file.  From then on a push or a pull under her name
    with a wrong key does not answer 401 with code 2001: the record has no
    [x-auth-user] member and [kss_auth] raises [KeyError]. *)
Theorem unauthorized_after_auth_push_raises now document b :
  let fs :=
    run [Register false SampleRuntime.registration;
         Push 1751935136
           (SampleRuntime.as_alice (JsonBody (JObj SampleCalls.auth_body)))] ∅ in
  push now (Request (Some "alice") (Some "wrong") b) fs = (Raise KeyError, fs) /\
  pull document (Request (Some "alice") (Some "wrong") b) fs =
    (Raise KeyError, fs).
Proof.
  intros fs. destruct alice_auth_pushed as (m & Hfile & Hm).
  assert (Hauth : kss_auth (Request (Some "alice") (Some "wrong") b) fs =
                  (Raise KeyError, fs))
    by (by apply (kss_auth_no_user_member "alice" "wrong" b fs m)).
  split; [by apply push_auth_raises | by apply pull_auth_raises].
Qed.

(** C9.  Alice registers and pulls the document [auth], for which nothing
    has been pushed.  [pull] finds her auth file at the path of the
    document, reads it as a record with none of the five members, and
    answers 200 with [null] instead of the document alone. *)
Theorem pull_auth_without_push b :
  let fs := run [Register false SampleRuntime.registration] ∅ in
  pull "auth" (SampleRuntime.as_alice b) fs = (Ok (JNull, 200), fs).
Proof.
  intros fs.
  rewrite (pull_authenticated "auth" _ fs "alice"
             {[ "x-auth-user" := JStr "alice";
                "x-auth-key" := JStr SampleRuntime.alice_key ]}).
  - reflexivity.
  - rewrite kss_auth_unfold. cbn [SampleRuntime.as_alice x_auth_user x_auth_key].
    change (str_truthy (Some "alice") && str_truthy (Some SampleRuntime.alice_key))
      with true. cbn [default from_option id]. subst fs.
    rewrite alice_registered, check_credential. by rewrite String.eqb_refl.
  - apply alice_registered.
Qed.

End SyncCoverage.

(** * The further properties on concrete requests *)

Section CoverageExamples.
Import Py Kss SyncSpec StoreSpec SampleRuntime SampleCalls.

Lemma login_outcome_witness :
  ((exists user, authenticates (as_alice NotJson) registered user) ->
     login (as_alice NotJson) registered =
       (Ok (JObj {[ "authorized" := JStr "OK" ]}, 200), registered)) /\
  ((~ exists user, authenticates (as_alice NotJson) registered user) ->
     login (as_alice NotJson) registered =
       (Ok (JObj {[ "message" := JStr "Unauthorized"; "code" := JInt 2001 ]},
            401), registered)).
Proof. apply login_outcome. apply registered_ok. Defined.

Lemma register_then_authenticate_witness :
  exists fs',
    register false registration ∅ =
      (Ok (JObj {[ "username" := JStr "alice" ]}, 201), fs') /\
    forall key b,
      kss_auth (Request (Some "alice") (Some key) b) fs' =
      (Ok (if String.eqb key alice_key then Some "alice" else None), fs').
Proof.
  apply (register_then_authenticate registration ∅
           {[ "username" := JStr "alice"; "password" := JStr alice_key ]});
    try reflexivity; discriminate.
Defined.

Lemma body_not_object_raises_witness :
  register false (as_alice (JsonBody (JArr []))) registered =
    (Raise AttributeError, registered) /\
  (forall user,
     kss_auth (as_alice (JsonBody (JArr []))) registered =
       (Ok (Some user), registered) ->
     push 5 (as_alice (JsonBody (JArr []))) registered =
       (Raise AttributeError, registered)).
Proof.
  apply (body_not_object_raises 5 (as_alice (JsonBody (JArr []))) registered
           (JArr [])); [reflexivity | discriminate].
Defined.

Lemma start_push_plain :
  Paths.plain_push (as_alice (JsonBody (JObj start_body))).
Proof.
  split.
  - by intros user [= <-].
  - intros d (m & document & [= <-] & Hdoc & <-).
    unfold start_body in Hdoc. rewrite lookup_insert_eq in Hdoc.
    by injection Hdoc as <-.
Qed.

Lemma session_plain : Forall Paths.plain session.
Proof.
  constructor; [|constructor; [|constructor]].
  - intros m user [= <-] Hu. unfold registration in Hu.
    rewrite lookup_insert_eq in Hu. by injection Hu as <-.
  - apply start_push_plain.
Qed.

Lemma push_other_users_witness :
  snd (push 1751935136 (as_alice (JsonBody (JObj start_body))) with_bob)
    !! (kss_dir "bob", "d1.json") =
  with_bob !! (kss_dir "bob", "d1.json").
Proof.
  apply push_other_users;
    [apply start_push_plain | reflexivity | reflexivity | discriminate].
Defined.

Lemma pull_own_directory_only_witness :
  fst (pull "d1" (as_alice NotJson) registered) =
  fst (pull "d1" (as_alice NotJson) with_bob).
Proof.
  apply pull_own_directory_only. intros user file_name [= <-].
  unfold with_bob. symmetry. apply lookup_insert_ne. discriminate.
Defined.

Lemma push_then_pull_fields_witness :
  exists r : response,
    pull "22b3308b1618273ad77a98fe29ca4600" (as_alice NotJson)
      (snd (push 1751935136 (as_alice (JsonBody (JObj progress_body)))
                 registered)) =
      (Ok r, snd (push 1751935136 (as_alice (JsonBody (JObj progress_body)))
                       registered)) /\
    snd r = 200 /\
    field_of r "timestamp" =
      (if 1751935136 =? 0 then None else Some (JInt 1751935136)) /\
    (forall key, key = "progress" \/ key = "device" \/ key = "device_id" ->
       field_of r key = present_truthy progress_body key) /\
    field_of r "percentage" =
      match present_truthy progress_body "percentage" with
      | Some p =>
          match float p with
          | Some f => if truthy (JFloat f) then Some (JFloat f) else None
          | None => None
          end
      | None => None
      end.
Proof.
  apply (push_then_pull_fields 1751935136
           (as_alice (JsonBody (JObj progress_body))) (as_alice NotJson)
           registered _ "alice" progress_body
           "22b3308b1618273ad77a98fe29ca4600").
  - apply alice_in_registered.
  - reflexivity.
  - reflexivity.
  - discriminate.
  - reflexivity.
  - apply alice_authenticated. reflexivity.
Defined.

Lemma last_write_wins_witness :
  snd (push 1751935200 (as_alice (JsonBody (JObj start_body)))
         (snd (push 1751935136
                 (as_alice (JsonBody (JObj {[ "document" := JStr "d1";
                                              "device" := JStr "X" ]})))
                 registered))) =
    <[kss_path "alice" (format (JStr "d1")) :=
        JObj (stored_record start_body 1751935200)]> registered /\
  snd (push 1751935200 (as_alice (JsonBody (JObj start_body)))
         (snd (push 1751935136
                 (as_alice (JsonBody (JObj {[ "document" := JStr "d1";
                                              "device" := JStr "X" ]})))
                 registered)))
    !! kss_path "alice" (format (JStr "d1")) =
    Some (JObj (stored_record start_body 1751935200)).
Proof.
  apply (last_write_wins 1751935136 1751935200
           (as_alice (JsonBody (JObj {[ "document" := JStr "d1";
                                        "device" := JStr "X" ]})))
           (as_alice (JsonBody (JObj start_body))) registered "alice"
           {[ "document" := JStr "d1"; "device" := JStr "X" ]} start_body
           (JStr "d1") (JStr "d1")); reflexivity.
Defined.

Lemma pull_members_only_witness :
  exists r : response,
    pull "d1" (as_alice NotJson) started = (Ok r, started) /\
    forall key, ~ pulled_member key -> field_of r key = None.
Proof.
  apply (pull_members_only "d1" (as_alice NotJson) started "alice" start_record).
  - apply alice_in_started.
  - reflexivity.
Defined.

Lemma session_conforming : Forall conforming session.
Proof.
  repeat constructor. simpl.
  intros (m & document & [= <-] & Hdoc & Hformat).
  unfold start_body in Hdoc. rewrite lookup_insert_eq in Hdoc.
  injection Hdoc as <-. discriminate Hformat.
Qed.

Lemma credential_immutable_witness :
  run [Push 1751935136 (as_alice (JsonBody (JObj start_body)))] registered
    !! kss_auth_file "alice" = Some (credential "alice" alice_key).
Proof.
  pose proof session_plain as Hp. pose proof session_conforming as Hs.
  apply credential_immutable; [by inversion Hp | by inversion Hs | reflexivity..].
Defined.

Lemma run_no_record_witness :
  run session ∅ !! kss_path "alice" "d2" = None.
Proof.
  apply run_no_record;
    [apply session_plain | reflexivity | reflexivity | discriminate | | reflexivity].
  repeat constructor; simpl; [tauto|].
  intros [_ (m & document & [= <-] & Hdoc & Hformat)].
  unfold start_body in Hdoc. rewrite lookup_insert_eq in Hdoc.
  injection Hdoc as <-. discriminate Hformat.
Defined.

Lemma push_auth_locks_out_witness :
  kss_auth (Request (Some "alice") (Some alice_key) NotJson)
    (snd (push 5 (as_alice (JsonBody (JObj auth_body))) registered)) =
    (Raise KeyError, snd (push 5 (as_alice (JsonBody (JObj auth_body))) registered)) /\
  login (Request (Some "alice") (Some alice_key) NotJson)
    (snd (push 5 (as_alice (JsonBody (JObj auth_body))) registered)) =
    (Raise KeyError, snd (push 5 (as_alice (JsonBody (JObj auth_body))) registered)).
Proof.
  apply (push_auth_locks_out 5 (as_alice (JsonBody (JObj auth_body))) registered
           "alice" auth_body).
  - apply alice_in_registered.
  - reflexivity.
  - reflexivity.
  - reflexivity.
  - discriminate.
Defined.

Lemma kss_path_single_components_witness :
  (Paths.kss_path Paths.sample_root "alice" "d1" =
     Paths.kss_path Paths.sample_root "bob" "d1" <->
   "alice" = "bob" /\ "d1" = "d1") /\
  (Paths.kss_path Paths.sample_root "alice" "d1" =
     Paths.kss_auth_file Paths.sample_root "bob" <->
   "alice" = "bob" /\ "d1" = "auth") /\
  (Paths.kss_path Paths.sample_root "alice" "d1" =
     Paths.kss_path Paths.sample_root "bob" "d1" <->
   kss_path "alice" "d1" = kss_path "bob" "d1") /\
  (Paths.kss_path Paths.sample_root "alice" "d1" =
     Paths.kss_auth_file Paths.sample_root "bob" <->
   kss_path "alice" "d1" = kss_auth_file "bob").
Proof.
  apply (kss_path_single_components Paths.sample_root "alice" "d1" "bob" "d1");
    reflexivity.
Defined.

Example kss_path_aliases_auth :
  Paths.kss_path Paths.sample_root "alice" "./auth" =
    Paths.kss_path Paths.sample_root "alice" "auth" /\
  Paths.kss_dir Paths.sample_root "alice/" = Paths.kss_dir Paths.sample_root "alice".
Proof.
  apply (kss_path_aliases Paths.sample_root "alice" "auth"); reflexivity.
Qed.

Lemma register_created_only_if_witness :
  false = false /\
  exists m user password,
    req_body registration = JsonBody (JObj m) /\
    m !! "username" = Some (JStr user) /\ user <> "" /\
    m !! "password" = Some (JStr password) /\ password <> "" /\
    (∅ : gmap (string * string) json) !! kss_auth_file user = None /\
    JObj {[ "username" := JStr "alice" ]} = JObj {[ "username" := JStr user ]}.
Proof.
  apply (register_created_only_if false registration ∅
           (JObj {[ "username" := JStr "alice" ]})).
  reflexivity.
Defined.

Lemma push_accepted_only_if_witness :
  exists user m document,
    kss_auth (as_alice (JsonBody (JObj start_body))) registered =
      (Ok (Some user), registered) /\
    req_body (as_alice (JsonBody (JObj start_body))) = JsonBody (JObj m) /\
    m !! "document" = Some document /\ truthy document = true /\
    JObj {[ "document" := JStr "d1"; "timestamp" := JInt 1751935136 ]} =
    JObj {[ "document" := document; "timestamp" := JInt 1751935136 ]}.
Proof.
  apply (push_accepted_only_if 1751935136
           (as_alice (JsonBody (JObj start_body))) registered
           (JObj {[ "document" := JStr "d1"; "timestamp" := JInt 1751935136 ]})).
  reflexivity.
Defined.

End CoverageExamples.
